(** * Agri-Bot: the streaming chat hooks and the chat page's send flow

    A shallow embedding of

    - [agri-frontend/hooks/useStreamingChat.ts]   (module [AgriFrontend]),
    - the extended hook that imports [../lib/api]  (module [Frontend]),
    - the request/response hook that replays the answer word by word
      (module [Fallback]),
    - [sendMessage] of the chat page              (module [ChatInterface]),
    - the effect of [agri-frontend/app/page.tsx] that settles the streamed
      message                                     (module [AgriPage]),
    - [useChatManager]                            (module [ChatManager]),

    together with the small part of JavaScript they rely on: truthiness and
    [||], arrays with holes, spread, [map], [split] and [filter]. *)

From Stdlib Require Import ZArith QArith String Ascii List Lia.
From stdpp Require Import base list strings gmap pretty.
Import ListNotations.

Close Scope Q_scope.
Open Scope string_scope.
Open Scope list_scope.
Open Scope Z_scope.

(** ** JavaScript values as the hooks use them *)

(** A [number] is taken as the rational it denotes; the only operations the
    hooks perform on numbers are truthiness tests, copies, comparisons and
    the progress formula of the replay loop. *)
Module JS.

(** [x || d] on an optional string: [undefined] and [''] are falsy. *)
Definition str_or (x : option string) (d : string) : string :=
  match x with
  | Some s => if String.eqb s "" then d else s
  | None => d
  end.

(** [x || d] on an optional number: [undefined] and [0] are falsy. *)
Definition num_or (x : option Q) (d : Q) : Q :=
  match x with
  | Some q => if Qeq_bool q 0 then d else q
  | None => d
  end.

(** [x || d] on an optional array: every array is truthy, also [[]]. *)
Definition arr_or {A} (x : option (list A)) (d : list A) : list A :=
  match x with
  | Some l => l
  | None => d
  end.

(** [x || d] on an optional boolean. *)
Definition bool_or (x : option bool) (d : bool) : bool :=
  match x with
  | Some true => true
  | _ => d
  end.

(** Truthiness of an optional string, as in [if (data.step && ...)]. *)
Definition truthy_str (x : option string) : bool :=
  match x with
  | Some s => negb (String.eqb s "")
  | None => false
  end.

End JS.

(** [s |> f |> g]: the assignments to [newState], in the order the source
    makes them. *)
Notation "s |> f" := (f s) (at level 50, left associativity, only parsing).

(** ** Arrays

    An array is its list of element slots plus the properties stored under
    keys that are not array indices.  A slot is a hole (no property at that
    index), the value [undefined], or an element. *)
Module JSArray.

Inductive slot (A : Type) : Type :=
| Hole
| Undefined
| Elem (a : A).
Arguments Hole {A}.
Arguments Undefined {A}.
Arguments Elem {A} a.

Record t (A : Type) : Type := mk {
  elems : list (slot A);
  props : gmap Z A
}.
Arguments mk {A} elems props.
Arguments elems {A} _.
Arguments props {A} _.

Definition empty {A} : t A := mk [] ∅.

(** [arr.length] *)
Definition length {A} (a : t A) : nat := List.length (elems a).

(** An array index is an integer in [0, 2^32 - 2]. *)
Definition is_index (k : Z) : bool := (0 <=? k) && (k <? 2 ^ 32 - 1).

(** What the iterator of an array yields at a slot: a hole reads as
    [undefined]. *)
Definition fill {A} (s : slot A) : slot A :=
  match s with
  | Hole => Undefined
  | _ => s
  end.

(** [[...arr]]: a fresh array of the iterated values; holes become
    [undefined] and properties under other keys are not copied. *)
Definition spread {A} (a : t A) : t A := mk (List.map fill (elems a)) ∅.

(** Writing slot [i] of a list of slots: in range the slot is replaced,
    past the end the list is extended with holes up to [i]. *)
Definition write {A} (l : list (slot A)) (i : nat) (x : A) : list (slot A) :=
  if (i <? List.length l)%nat then <[i := Elem x]> l
  else l ++ replicate (i - List.length l) Hole ++ [Elem x].

(** [arr[k] = x] *)
Definition set {A} (a : t A) (k : Z) (x : A) : t A :=
  if is_index k then mk (write (elems a) (Z.to_nat k) x) (props a)
  else mk (elems a) (<[k := x]> (props a)).

(** [arr[i]] for an array index [i]: [None] is [undefined]. *)
Definition get {A} (a : t A) (i : nat) : option A :=
  match elems a !! i with
  | Some (Elem x) => Some x
  | _ => None
  end.

(** [arr.map(f)]: [f] is not called on holes, which stay holes; it is
    called on [undefined] elements as on any other ([None] below). *)
Definition map {A B} (f : option A -> B) (a : t A) : t B :=
  mk (List.map (fun s => match s with
                         | Hole => Hole
                         | Undefined => Elem (f None)
                         | Elem x => Elem (f (Some x))
                         end) (elems a)) ∅.

(** The entries present in the array: the slots that are not holes. *)
Definition present {A} (a : t A) : list (slot A) :=
  List.filter (fun s => match s with Hole => false | _ => true end) (elems a).

End JSArray.

(** ** Records shared by the hooks *)

Module Source.
Record t : Type := mk {
  id : Z;
  title : string;
  type : string;
  confidence : Q;
  url : string
}.
End Source.

(** A reasoning step as an object at run time.  [step] and [index] are
    optional because [{...step, completed: true}] applied to [undefined]
    yields an object with [completed] alone. *)
Module ReasoningStep.
Record t : Type := mk {
  step : option string;
  index : option Z;
  completed : option bool
}.

(** [{...step, completed: true}] *)
Definition complete (s : option t) : t :=
  match s with
  | Some o => mk (step o) (index o) (Some true)
  | None => mk None None (Some true)
  end.
End ReasoningStep.

Module WebSearchQuery.
Record t : Type := mk {
  query : string;
  timestamp : Z;
  results : option Z
}.
End WebSearchQuery.

(** The state of an [EventSource] object, as far as the hooks can tell. *)
Inductive ReadyState : Type := Live | Closed.

(** ** [agri-frontend/hooks/useStreamingChat.ts] *)
Module AgriFrontend.

(** [interface StreamingMessage]: the parsed payload of one event. *)
Module StreamingMessage.
Record t : Type := mk {
  type : string;
  message : option string;
  progress : option Q;
  phase : option string;
  title : option string;
  status : option string;
  result : option string;
  sources : option (list Source.t);
  step : option string;
  index : option Z;
  chunk : option string;
  query : option string;
  response_id : option string
}.
End StreamingMessage.
Import StreamingMessage.

(** [interface StreamingState] *)
Record StreamingState : Type := mkState {
  isStreaming : bool;
  progress : Q;
  currentPhase : string;
  phaseTitle : string;
  sources : list Source.t;
  reasoningSteps : JSArray.t ReasoningStep.t;
  webSearchQueries : list WebSearchQuery.t;
  streamingText : string;
  factCheckStatus : string;
  error : option string
}.

(** The argument of [useState]. *)
Definition initialState : StreamingState :=
  mkState false 0%Q "" "" [] JSArray.empty [] "" "" None.

(** The state [startStreaming] sets before it opens the transport. *)
Definition resetState : StreamingState :=
  mkState true 0%Q "" "" [] JSArray.empty [] "" "" None.

(** Assignments to one field of [newState = { ...prev }]. *)
Definition set_isStreaming (b : bool) (s : StreamingState) : StreamingState :=
  mkState b (progress s) (currentPhase s) (phaseTitle s) (sources s)
          (reasoningSteps s) (webSearchQueries s) (streamingText s)
          (factCheckStatus s) (error s).
Definition set_progress (p : Q) (s : StreamingState) : StreamingState :=
  mkState (isStreaming s) p (currentPhase s) (phaseTitle s) (sources s)
          (reasoningSteps s) (webSearchQueries s) (streamingText s)
          (factCheckStatus s) (error s).
Definition set_currentPhase (x : string) (s : StreamingState) : StreamingState :=
  mkState (isStreaming s) (progress s) x (phaseTitle s) (sources s)
          (reasoningSteps s) (webSearchQueries s) (streamingText s)
          (factCheckStatus s) (error s).
Definition set_phaseTitle (x : string) (s : StreamingState) : StreamingState :=
  mkState (isStreaming s) (progress s) (currentPhase s) x (sources s)
          (reasoningSteps s) (webSearchQueries s) (streamingText s)
          (factCheckStatus s) (error s).
Definition set_sources (x : list Source.t) (s : StreamingState) : StreamingState :=
  mkState (isStreaming s) (progress s) (currentPhase s) (phaseTitle s) x
          (reasoningSteps s) (webSearchQueries s) (streamingText s)
          (factCheckStatus s) (error s).
Definition set_reasoningSteps (x : JSArray.t ReasoningStep.t) (s : StreamingState)
  : StreamingState :=
  mkState (isStreaming s) (progress s) (currentPhase s) (phaseTitle s) (sources s)
          x (webSearchQueries s) (streamingText s) (factCheckStatus s) (error s).
Definition set_webSearchQueries (x : list WebSearchQuery.t) (s : StreamingState)
  : StreamingState :=
  mkState (isStreaming s) (progress s) (currentPhase s) (phaseTitle s) (sources s)
          (reasoningSteps s) x (streamingText s) (factCheckStatus s) (error s).
Definition set_streamingText (x : string) (s : StreamingState) : StreamingState :=
  mkState (isStreaming s) (progress s) (currentPhase s) (phaseTitle s) (sources s)
          (reasoningSteps s) (webSearchQueries s) x (factCheckStatus s) (error s).
Definition set_factCheckStatus (x : string) (s : StreamingState) : StreamingState :=
  mkState (isStreaming s) (progress s) (currentPhase s) (phaseTitle s) (sources s)
          (reasoningSteps s) (webSearchQueries s) (streamingText s) x (error s).
Definition set_error (x : option string) (s : StreamingState) : StreamingState :=
  mkState (isStreaming s) (progress s) (currentPhase s) (phaseTitle s) (sources s)
          (reasoningSteps s) (webSearchQueries s) (streamingText s)
          (factCheckStatus s) x.

(** The cases of [switch (data.type)]. *)
Inductive Case : Type :=
| status_ | phase_ | phase_complete | sources_found | reasoning_step
| web_search_query | response_start | response_chunk | fact_check_result
| completion | error_ | no_case.

Definition case_of (ty : string) : Case :=
  if String.eqb ty "status" then status_
  else if String.eqb ty "phase" then phase_
  else if String.eqb ty "phase_complete" then phase_complete
  else if String.eqb ty "sources_found" then sources_found
  else if String.eqb ty "reasoning_step" then reasoning_step
  else if String.eqb ty "web_search_query" then web_search_query
  else if String.eqb ty "response_start" then response_start
  else if String.eqb ty "response_chunk" then response_chunk
  else if String.eqb ty "fact_check_result" then fact_check_result
  else if String.eqb ty "completion" then completion
  else if String.eqb ty "error" then error_
  else no_case.

(** The updater passed to [setStreamingState] in [onmessage]; [now] is the
    clock read by [new Date()]. *)
Definition fold (now : Z) (prev : StreamingState) (data : StreamingMessage.t)
  : StreamingState :=
  match case_of (type data) with
  | status_ =>
      set_progress (JS.num_or (StreamingMessage.progress data) 0%Q) prev
  | phase_ =>
      prev |> set_currentPhase (JS.str_or (phase data) "")
           |> set_phaseTitle (JS.str_or (title data) "")
  | phase_complete =>
      set_progress (JS.num_or (StreamingMessage.progress data) (progress prev)) prev
  | sources_found =>
      prev |> set_sources (JS.arr_or (StreamingMessage.sources data) [])
           |> set_progress
                (JS.num_or (StreamingMessage.progress data) (progress prev))
  | reasoning_step =>
      match index data with
      | Some i =>
          if JS.truthy_str (step data) then
            let newSteps := JSArray.spread (reasoningSteps prev) in
            set_reasoningSteps
              (JSArray.set newSteps i
                 (ReasoningStep.mk (step data) (Some i) (Some false)))
              prev
          else prev
      | None => prev
      end
  | web_search_query =>
      match query data with
      | Some q =>
          if JS.truthy_str (Some q) then
            set_webSearchQueries
              (webSearchQueries prev ++ [WebSearchQuery.mk q now None]) prev
          else prev
      | None => prev
      end
  | response_start => set_streamingText "" prev
  | response_chunk =>
      prev |> set_streamingText (JS.str_or (chunk data) "")
           |> set_progress
                (JS.num_or (StreamingMessage.progress data) (progress prev))
  | fact_check_result =>
      set_factCheckStatus (JS.str_or (status data) "") prev
  | completion =>
      prev |> set_isStreaming false
           |> set_progress 100%Q
           |> set_reasoningSteps
                (JSArray.map ReasoningStep.complete (reasoningSteps prev))
  | error_ =>
      prev |> set_error (Some (JS.str_or (message data) "An error occurred"))
           |> set_isStreaming false
  | no_case => prev
  end.

(** One [message] event of the [EventSource]: the clock when it is handled
    and what [JSON.parse(event.data)] gives, [None] when it throws. *)
Record MessageEvent : Type := mkEvent {
  clock : Z;
  data : option StreamingMessage.t
}.

(** [eventSource.onmessage]: a payload that does not parse is logged and
    the state is left as it is. *)
Definition onmessage (prev : StreamingState) (ev : MessageEvent) : StreamingState :=
  match data ev with
  | Some d => fold (clock ev) prev d
  | None => prev
  end.

(** The hook: its state, the ref, and the [EventSource] objects created so
    far, by identity. *)
Record Hook : Type := mkHook {
  streamingState : StreamingState;
  eventSourceRef : option nat;
  eventSources : gmap nat ReadyState
}.

Definition initialHook : Hook := mkHook initialState None ∅.

(** [startStreaming]: [constructed] tells whether building the URL and
    [new EventSource(...)] return; when they throw, the [catch] runs. *)
Definition startStreaming (constructed : bool) (h : Hook) : Hook :=
  if constructed then
    let es := fresh (dom (eventSources h)) in
    mkHook resetState (Some es) (<[es := Live]> (eventSources h))
  else
    mkHook (resetState |> set_error (Some "Failed to start streaming")
                       |> set_isStreaming false)
           (eventSourceRef h) (eventSources h).

(** A [message] event dispatched by the [EventSource] [es]; a closed
    [EventSource] dispatches nothing. *)
Definition message_from (es : nat) (ev : MessageEvent) (h : Hook) : Hook :=
  match eventSources h !! es with
  | Some Live =>
      mkHook (onmessage (streamingState h) ev) (eventSourceRef h) (eventSources h)
  | _ => h
  end.

(** [eventSource.onerror] of the [EventSource] [es]. *)
Definition onerror (es : nat) (h : Hook) : Hook :=
  match eventSources h !! es with
  | Some Live =>
      mkHook (streamingState h |> set_error (Some "Connection error occurred")
                               |> set_isStreaming false)
             (eventSourceRef h) (<[es := Closed]> (eventSources h))
  | _ => h
  end.

(** [stopStreaming] *)
Definition stopStreaming (h : Hook) : Hook :=
  let h1 :=
    match eventSourceRef h with
    | Some es => mkHook (streamingState h) None (<[es := Closed]> (eventSources h))
    | None => h
    end in
  mkHook (set_isStreaming false (streamingState h1))
         (eventSourceRef h1) (eventSources h1).

End AgriFrontend.

(** ** The extended hook (imports [apiService] from [../lib/api]) *)
Module Frontend.

Module StreamingMessage.
Record t : Type := mk {
  type : string;
  message : option string;
  progress : option Q;
  phase : option string;
  title : option string;
  status : option string;
  result : option string;
  sources : option (list Source.t);
  step : option string;
  index : option Z;
  chunk : option string;
  query : option string;
  response_id : option string;
  confidence : option Q;
  validation_status : option string;
  language : option string;
  sources_used : option (list string);
  fact_checker_used : option bool
}.
End StreamingMessage.
Import StreamingMessage.

Module FactCheckStep.
Record t : Type := mk {
  step : string;
  status : string;
  completed : option bool
}.

(** [{...step, completed: true}] *)
Definition complete (s : t) : t := mk (step s) (status s) (Some true).
End FactCheckStep.

Record StreamingState : Type := mkState {
  isStreaming : bool;
  progress : Q;
  currentPhase : string;
  phaseTitle : string;
  sources : list Source.t;
  reasoningSteps : JSArray.t ReasoningStep.t;
  webSearchQueries : list WebSearchQuery.t;
  streamingText : string;
  factCheckStatus : string;
  factCheckSteps : list FactCheckStep.t;
  factCheckCorrections : string;
  error : option string;
  confidence : Q;
  validationStatus : string;
  language : string;
  sourcesUsed : list string;
  factCheckerUsed : bool
}.

Definition initialState : StreamingState :=
  mkState false 0%Q "" "" [] JSArray.empty [] "" "" [] "" None 0%Q "" "" [] false.

Definition resetState : StreamingState :=
  mkState true 0%Q "" "" [] JSArray.empty [] "" "" [] "" None 0%Q "" "" [] false.

Definition set_isStreaming (x : bool) (s : StreamingState) : StreamingState :=
  mkState x (progress s) (currentPhase s) (phaseTitle s) (sources s)
          (reasoningSteps s) (webSearchQueries s) (streamingText s)
          (factCheckStatus s) (factCheckSteps s) (factCheckCorrections s)
          (error s) (confidence s) (validationStatus s) (language s)
          (sourcesUsed s) (factCheckerUsed s).
Definition set_progress (x : Q) (s : StreamingState) : StreamingState :=
  mkState (isStreaming s) x (currentPhase s) (phaseTitle s) (sources s)
          (reasoningSteps s) (webSearchQueries s) (streamingText s)
          (factCheckStatus s) (factCheckSteps s) (factCheckCorrections s)
          (error s) (confidence s) (validationStatus s) (language s)
          (sourcesUsed s) (factCheckerUsed s).
Definition set_currentPhase (x : string) (s : StreamingState) : StreamingState :=
  mkState (isStreaming s) (progress s) x (phaseTitle s) (sources s)
          (reasoningSteps s) (webSearchQueries s) (streamingText s)
          (factCheckStatus s) (factCheckSteps s) (factCheckCorrections s)
          (error s) (confidence s) (validationStatus s) (language s)
          (sourcesUsed s) (factCheckerUsed s).
Definition set_phaseTitle (x : string) (s : StreamingState) : StreamingState :=
  mkState (isStreaming s) (progress s) (currentPhase s) x (sources s)
          (reasoningSteps s) (webSearchQueries s) (streamingText s)
          (factCheckStatus s) (factCheckSteps s) (factCheckCorrections s)
          (error s) (confidence s) (validationStatus s) (language s)
          (sourcesUsed s) (factCheckerUsed s).
Definition set_sources (x : list Source.t) (s : StreamingState) : StreamingState :=
  mkState (isStreaming s) (progress s) (currentPhase s) (phaseTitle s) x
          (reasoningSteps s) (webSearchQueries s) (streamingText s)
          (factCheckStatus s) (factCheckSteps s) (factCheckCorrections s)
          (error s) (confidence s) (validationStatus s) (language s)
          (sourcesUsed s) (factCheckerUsed s).
Definition set_reasoningSteps (x : JSArray.t ReasoningStep.t) (s : StreamingState) : StreamingState :=
  mkState (isStreaming s) (progress s) (currentPhase s) (phaseTitle s) (sources s)
          x (webSearchQueries s) (streamingText s) (factCheckStatus s)
          (factCheckSteps s) (factCheckCorrections s) (error s) (confidence s)
          (validationStatus s) (language s) (sourcesUsed s) (factCheckerUsed s).
Definition set_webSearchQueries (x : list WebSearchQuery.t) (s : StreamingState) : StreamingState :=
  mkState (isStreaming s) (progress s) (currentPhase s) (phaseTitle s) (sources s)
          (reasoningSteps s) x (streamingText s) (factCheckStatus s)
          (factCheckSteps s) (factCheckCorrections s) (error s) (confidence s)
          (validationStatus s) (language s) (sourcesUsed s) (factCheckerUsed s).
Definition set_streamingText (x : string) (s : StreamingState) : StreamingState :=
  mkState (isStreaming s) (progress s) (currentPhase s) (phaseTitle s) (sources s)
          (reasoningSteps s) (webSearchQueries s) x (factCheckStatus s)
          (factCheckSteps s) (factCheckCorrections s) (error s) (confidence s)
          (validationStatus s) (language s) (sourcesUsed s) (factCheckerUsed s).
Definition set_factCheckStatus (x : string) (s : StreamingState) : StreamingState :=
  mkState (isStreaming s) (progress s) (currentPhase s) (phaseTitle s) (sources s)
          (reasoningSteps s) (webSearchQueries s) (streamingText s) x
          (factCheckSteps s) (factCheckCorrections s) (error s) (confidence s)
          (validationStatus s) (language s) (sourcesUsed s) (factCheckerUsed s).
Definition set_factCheckSteps (x : list FactCheckStep.t) (s : StreamingState) : StreamingState :=
  mkState (isStreaming s) (progress s) (currentPhase s) (phaseTitle s) (sources s)
          (reasoningSteps s) (webSearchQueries s) (streamingText s)
          (factCheckStatus s) x (factCheckCorrections s) (error s) (confidence s)
          (validationStatus s) (language s) (sourcesUsed s) (factCheckerUsed s).
Definition set_error (x : option string) (s : StreamingState) : StreamingState :=
  mkState (isStreaming s) (progress s) (currentPhase s) (phaseTitle s) (sources s)
          (reasoningSteps s) (webSearchQueries s) (streamingText s)
          (factCheckStatus s) (factCheckSteps s) (factCheckCorrections s) x
          (confidence s) (validationStatus s) (language s) (sourcesUsed s)
          (factCheckerUsed s).
Definition set_confidence (x : Q) (s : StreamingState) : StreamingState :=
  mkState (isStreaming s) (progress s) (currentPhase s) (phaseTitle s) (sources s)
          (reasoningSteps s) (webSearchQueries s) (streamingText s)
          (factCheckStatus s) (factCheckSteps s) (factCheckCorrections s)
          (error s) x (validationStatus s) (language s) (sourcesUsed s)
          (factCheckerUsed s).
Definition set_validationStatus (x : string) (s : StreamingState) : StreamingState :=
  mkState (isStreaming s) (progress s) (currentPhase s) (phaseTitle s) (sources s)
          (reasoningSteps s) (webSearchQueries s) (streamingText s)
          (factCheckStatus s) (factCheckSteps s) (factCheckCorrections s)
          (error s) (confidence s) x (language s) (sourcesUsed s)
          (factCheckerUsed s).
Definition set_language (x : string) (s : StreamingState) : StreamingState :=
  mkState (isStreaming s) (progress s) (currentPhase s) (phaseTitle s) (sources s)
          (reasoningSteps s) (webSearchQueries s) (streamingText s)
          (factCheckStatus s) (factCheckSteps s) (factCheckCorrections s)
          (error s) (confidence s) (validationStatus s) x (sourcesUsed s)
          (factCheckerUsed s).
Definition set_sourcesUsed (x : list string) (s : StreamingState) : StreamingState :=
  mkState (isStreaming s) (progress s) (currentPhase s) (phaseTitle s) (sources s)
          (reasoningSteps s) (webSearchQueries s) (streamingText s)
          (factCheckStatus s) (factCheckSteps s) (factCheckCorrections s)
          (error s) (confidence s) (validationStatus s) (language s) x
          (factCheckerUsed s).
Definition set_factCheckerUsed (x : bool) (s : StreamingState) : StreamingState :=
  mkState (isStreaming s) (progress s) (currentPhase s) (phaseTitle s) (sources s)
          (reasoningSteps s) (webSearchQueries s) (streamingText s)
          (factCheckStatus s) (factCheckSteps s) (factCheckCorrections s)
          (error s) (confidence s) (validationStatus s) (language s)
          (sourcesUsed s) x.

(** The cases of [switch (data.type)]. *)
Inductive Case : Type :=
| status_ | phase_ | phase_complete | sources_found | ai_step | reasoning_step
| fact_check_step | web_search_query | response_start | response_chunk
| fact_check_result | completion | error_ | no_case.

Definition case_of (ty : string) : Case :=
  if String.eqb ty "status" then status_
  else if String.eqb ty "phase" then phase_
  else if String.eqb ty "phase_complete" then phase_complete
  else if String.eqb ty "sources_found" then sources_found
  else if String.eqb ty "ai_step" then ai_step
  else if String.eqb ty "reasoning_step" then reasoning_step
  else if String.eqb ty "fact_check_step" then fact_check_step
  else if String.eqb ty "web_search_query" then web_search_query
  else if String.eqb ty "response_start" then response_start
  else if String.eqb ty "response_chunk" then response_chunk
  else if String.eqb ty "fact_check_result" then fact_check_result
  else if String.eqb ty "completion" then completion
  else if String.eqb ty "error" then error_
  else no_case.

(** The updater passed to [setStreamingState] in [onmessage]. *)
Definition fold (now : Z) (prev : StreamingState) (data : StreamingMessage.t)
  : StreamingState :=
  match case_of (type data) with
  | status_ =>
      set_progress (JS.num_or (StreamingMessage.progress data) 0%Q) prev
  | phase_ =>
      prev |> set_currentPhase (JS.str_or (phase data) "")
           |> set_phaseTitle (JS.str_or (title data) "")
  | phase_complete =>
      set_progress (JS.num_or (StreamingMessage.progress data) (progress prev)) prev
  | sources_found =>
      prev |> set_sources (JS.arr_or (StreamingMessage.sources data) [])
           |> set_progress
                (JS.num_or (StreamingMessage.progress data) (progress prev))
  | ai_step =>
      set_phaseTitle (JS.str_or (step data) (phaseTitle prev)) prev
  | reasoning_step =>
      match index data with
      | Some i =>
          if JS.truthy_str (step data) then
            let newSteps := JSArray.spread (reasoningSteps prev) in
            set_reasoningSteps
              (JSArray.set newSteps i
                 (ReasoningStep.mk (step data) (Some i) (Some false)))
              prev
          else prev
      | None => prev
      end
  | fact_check_step =>
      match step data, status data with
      | Some st, Some ss =>
          if JS.truthy_str (Some st) && JS.truthy_str (Some ss) then
            set_factCheckSteps
              (factCheckSteps prev ++
                 [FactCheckStep.mk st ss (Some (String.eqb ss "completed"))])
              prev
          else prev
      | _, _ => prev
      end
  | web_search_query =>
      match query data with
      | Some q =>
          if JS.truthy_str (Some q) then
            set_webSearchQueries
              (webSearchQueries prev ++ [WebSearchQuery.mk q now None]) prev
          else prev
      | None => prev
      end
  | response_start => set_streamingText "" prev
  | response_chunk =>
      prev |> set_streamingText (JS.str_or (chunk data) "")
           |> set_progress
                (JS.num_or (StreamingMessage.progress data) (progress prev))
  | fact_check_result =>
      prev |> set_factCheckStatus (JS.str_or (status data) "")
           |> set_confidence (JS.num_or (StreamingMessage.confidence data) 0%Q)
  | completion =>
      prev |> set_isStreaming false
           |> set_progress 100%Q
           |> set_confidence
                (JS.num_or (StreamingMessage.confidence data) (confidence prev))
           |> set_validationStatus (JS.str_or (validation_status data) "")
           |> set_language (JS.str_or (StreamingMessage.language data) "")
           |> set_sourcesUsed (JS.arr_or (sources_used data) [])
           |> set_factCheckerUsed (JS.bool_or (fact_checker_used data) false)
           |> set_reasoningSteps
                (JSArray.map ReasoningStep.complete (reasoningSteps prev))
           |> set_factCheckSteps
                (List.map FactCheckStep.complete (factCheckSteps prev))
  | error_ =>
      prev |> set_error (Some (JS.str_or (message data) "An error occurred"))
           |> set_isStreaming false
  | no_case => prev
  end.

Record MessageEvent : Type := mkEvent {
  clock : Z;
  data : option StreamingMessage.t
}.

(** [eventSource.onmessage]: a payload that does not parse ends the stream
    with an error. *)
Definition onmessage (prev : StreamingState) (ev : MessageEvent) : StreamingState :=
  match data ev with
  | Some d => fold (clock ev) prev d
  | None =>
      prev |> set_error (Some "Failed to parse response data")
           |> set_isStreaming false
  end.

End Frontend.

(** ** The request/response hook with the word-by-word replay *)
Module Fallback.

(** [interface ChatMessage] of the API client, with the fields read here
    and by the chat page. *)
Module ChatMessage.
Record t : Type := mk {
  id : string;
  session_id : string;
  role : string;
  content : string;
  created_at : string;
  confidence_score : option Q;
  fact_check_status : option string
}.
End ChatMessage.

Module SourceInfo.
Record t : Type := mk {
  title : string;
  url : string;
  snippet : string;
  confidence : Q
}.
End SourceInfo.

Inductive StepStatus : Type := processing | complete.

Module StepInfo.
Record t : Type := mk {
  step : string;
  detail : string;
  status : StepStatus
}.
End StepInfo.

Record StreamingState : Type := mkState {
  isStreaming : bool;
  progress : Q;
  currentPhase : string;
  phaseTitle : string;
  streamingText : string;
  factCheckStatus : string;
  error : option string;
  confidence : Q;
  validationStatus : string;
  sources : list SourceInfo.t;
  reasoningSteps : list StepInfo.t
}.

Definition initialState : StreamingState :=
  mkState false 0%Q "" "" "" "" None 0%Q "" [] [].

(** The state set first by [startStreaming]. *)
Definition resetState : StreamingState :=
  mkState true 5%Q "initializing" "Initializing AI system..." "" "" None 0%Q "" [] [].

(** A value caught by [catch (error)]. *)
Inductive Thrown : Type :=
| ErrorObject (message : string)
| OtherValue.

(** The outcome of an awaited call. *)
Inductive Outcome (A : Type) : Type :=
| Rejects (e : Thrown)
| Resolves (a : A).
Arguments Rejects {A} e.
Arguments Resolves {A} a.

(** An updater passed to [setStreamingState]; a plain state is the
    constant updater. *)
Definition Update : Type := StreamingState -> StreamingState.

(** [prev => ({ ...prev, progress: p, phaseTitle: t })] *)
Definition tick (p : Q) (t : string) : Update := fun prev =>
  mkState (isStreaming prev) p (currentPhase prev) t (streamingText prev)
          (factCheckStatus prev) (error prev) (confidence prev)
          (validationStatus prev) (sources prev) (reasoningSteps prev).

(** The update made once the assistant message is found. *)
Definition delivering : Update := fun prev =>
  mkState (isStreaming prev) 75%Q "response" "Delivering response..."
          (streamingText prev) (factCheckStatus prev) (error prev)
          (confidence prev) (validationStatus prev) (sources prev)
          (reasoningSteps prev).

(** The update of one iteration of the replay loop. *)
Definition show (currentText : string) (p : Q) : Update := fun prev =>
  mkState (isStreaming prev) p (currentPhase prev) (phaseTitle prev) currentText
          (factCheckStatus prev) (error prev) (confidence prev)
          (validationStatus prev) (sources prev) (reasoningSteps prev).

(** The update after the loop. *)
Definition completed (ai : ChatMessage.t) : Update := fun prev =>
  mkState (isStreaming prev) 100%Q (currentPhase prev) "Complete!"
          (streamingText prev) (factCheckStatus prev) (error prev)
          (JS.num_or (ChatMessage.confidence_score ai) (9 # 10)%Q)
          (JS.str_or (ChatMessage.fact_check_status ai) "approved")
          (sources prev) (reasoningSteps prev).

(** The update made by the last timer. *)
Definition finished : Update := fun prev =>
  mkState false (progress prev) (currentPhase prev) (phaseTitle prev)
          (streamingText prev) (factCheckStatus prev) (error prev)
          (confidence prev) (validationStatus prev) (sources prev)
          (reasoningSteps prev).

(** The update of the [catch] block. *)
Definition failed (e : Thrown) : Update := fun prev =>
  mkState false 0%Q (currentPhase prev) (phaseTitle prev) ""
          (factCheckStatus prev)
          (Some match e with
                | ErrorObject m => m
                | OtherValue => "Failed to process your request"
                end)
          (confidence prev) (validationStatus prev) (sources prev)
          (reasoningSteps prev).

(** [s.split(' ')]: the pieces between single spaces; never empty. *)
Fixpoint split_space (s : string) : list string :=
  match s with
  | EmptyString => [""]
  | String c rest =>
      if Ascii.eqb c " "%char then "" :: split_space rest
      else match split_space rest with
           | w :: ws => String c w :: ws
           | [] => [String c ""]
           end
  end.

(** [75 + ((i + 1) / words.length) * 20] *)
Definition replay_progress (i n : nat) : Q :=
  (75 + (inject_Z (Z.of_nat i + 1) / inject_Z (Z.of_nat n)) * 20)%Q.

(** The [for] loop from iteration [i] on: [rest] is [words[i..]], [n] is
    [words.length]; it returns the updates made and the final
    [currentText]. *)
Fixpoint replay (n i : nat) (currentText : string) (rest : list string)
  : list Update * string :=
  match rest with
  | [] => ([], currentText)
  | w :: rest' =>
      let currentText' :=
        currentText +:+ (if (0 <? i)%nat then " " else "") +:+ w in
      let '(ups, final) := replay n (S i) currentText' rest' in
      (show currentText' (replay_progress i n) :: ups, final)
  end.

(** [response.find(msg => msg.role === 'assistant')] *)
Definition find_assistant (response : list ChatMessage.t) : option ChatMessage.t :=
  List.find (fun msg => String.eqb (ChatMessage.role msg) "assistant") response.

(** [startStreaming]: the updates it passes to [setStreamingState], in
    program order.  [token] is [localStorage.getItem('auth_token')] and
    [response] the outcome of [apiService.sendMessage]. *)
Definition startStreaming (token : option string)
    (response : Outcome (list ChatMessage.t)) : list Update :=
  let reset : Update := fun _ => resetState in
  if negb (JS.truthy_str token) then
    [reset; failed (ErrorObject "No authentication token found")]
  else
    let ticks :=
      [ tick 15%Q "Connecting to agricultural AI...";
        tick 30%Q "Analyzing your query...";
        tick 45%Q "Searching knowledge base...";
        tick 60%Q "Generating response..." ] in
    match response with
    | Rejects e => reset :: ticks ++ [failed e]
    | Resolves msgs =>
        if (0 <? List.length msgs)%nat then
          match find_assistant msgs with
          | Some aiMessage =>
              let fullText := ChatMessage.content aiMessage in
              let words := split_space fullText in
              reset :: ticks ++ [delivering]
                ++ fst (replay (List.length words) 0 "" words)
                ++ [completed aiMessage; finished]
          | None =>
              reset :: ticks ++ [failed (ErrorObject "No AI response found")]
          end
        else
          reset :: ticks ++ [failed (ErrorObject "Empty response received")]
    end.

(** React applies the queued updates in order. *)
Definition apply_updates (ups : list Update) (s : StreamingState) : StreamingState :=
  fold_left (fun st u => u st) ups s.

End Fallback.

(** ** [sendMessage] of the chat page *)
Module ChatInterface.

Import Fallback.

Inductive Role : Type := user | assistant.

(** [interface Message]; [timestamp] is the time value of the [Date] in
    milliseconds, [None] for an invalid date. *)
Module Message.
Record t : Type := mk {
  id : string;
  role : Role;
  content : string;
  timestamp : option Z
}.
End Message.

(** The component state [sendMessage] reads and writes. *)
Record State : Type := mkState {
  messages : list Message.t;
  currentMessage : string;
  sessionId : option string;
  isThinking : bool;
  isAuthenticated : bool
}.

(** What one call meets: the outcomes of the two awaited API calls and the
    clock in its synchronous blocks ([t_sent] where the user message is
    built, [t_done] where the reply or the failure is handled). *)
Record Run : Type := mkRun {
  session : Outcome string;
  reply : Outcome (list ChatMessage.t);
  t_sent : Z;
  t_done : Z
}.

Definition is_space (c : ascii) : bool :=
  let n := nat_of_ascii c in
  ((9 <=? n) && (n <=? 13) || (n =? 32))%nat.

(** [!s.trim()] over the ASCII white space. *)
Fixpoint is_blank (s : string) : bool :=
  match s with
  | EmptyString => true
  | String c rest => is_space c && is_blank rest
  end.

(** [Date.now().toString()] *)
Definition now_id (t : Z) : string := pretty t.

(** [Math.abs(new Date(msg.timestamp).getTime() - currentTime) < 1000];
    a comparison with [NaN] is false. *)
Definition near (currentTime : Z) (ts : option Z) : bool :=
  match ts with
  | Some t => Z.abs (t - currentTime) <? 1000
  | None => false
  end.

(** The [filter] of the [catch] block. *)
Definition rollback (currentTime : Z) (prev : list Message.t) : list Message.t :=
  List.filter
    (fun msg =>
       negb (match Message.role msg with user => true | assistant => false end
             && near currentTime (Message.timestamp msg)))
    prev.

Definition error_text (e : Thrown) : string :=
  "**Error**: " +:+
  match e with
  | ErrorObject m => m
  | OtherValue => "Failed to send message. Please try again."
  end.

(** The [catch] block, run at clock [t] on the state [st]; [typed] is the
    [currentMessage] of the render in which [sendMessage] was called. *)
Definition on_failure (e : Thrown) (t : Z) (typed : string) (st : State) : State :=
  let errorMessage := Message.mk (now_id t) assistant (error_text e) (Some t) in
  mkState (rollback t (messages st) ++ [errorMessage])
          typed (sessionId st) false (isAuthenticated st).

Definition sendMessage (r : Run) (st : State) : State :=
  if is_blank (currentMessage st) then st
  else if isThinking st then st
  else if negb (isAuthenticated st) then st
  else
    let created :=
      if JS.truthy_str (sessionId st)
      then Resolves (JS.str_or (sessionId st) "")
      else session r in
    match created with
    | Rejects e => on_failure e (t_done r) (currentMessage st) st
    | Resolves currentSessionId =>
        let userMessage :=
          Message.mk (now_id (t_sent r)) user (currentMessage st)
                     (Some (t_sent r)) in
        let st1 :=
          mkState (messages st ++ [userMessage]) "" (Some currentSessionId)
                  true (isAuthenticated st) in
        match reply r with
        | Rejects e => on_failure e (t_done r) (currentMessage st) st1
        | Resolves responseMessages =>
            let shown :=
              match find_assistant responseMessages with
              | Some assistantResponse =>
                  messages st1 ++
                    [Message.mk (now_id (t_done r)) assistant
                                (ChatMessage.content assistantResponse)
                                (Some (t_done r))]
              | None => messages st1
              end in
            mkState shown (currentMessage st1) (sessionId st1) false
                    (isAuthenticated st1)
        end
    end.

End ChatInterface.

(** ** Tag lists and sample events used in the statements *)

(** The type tags with a [case] in each of the two [switch] statements. *)
Definition agri_cases : list string :=
  [ "status"; "phase"; "phase_complete"; "sources_found"; "reasoning_step";
    "web_search_query"; "response_start"; "response_chunk";
    "fact_check_result"; "completion"; "error" ].

Definition frontend_cases : list string :=
  "ai_step" :: "fact_check_step" :: agri_cases.

Definition agri_event (ty : string) : AgriFrontend.StreamingMessage.t :=
  AgriFrontend.StreamingMessage.mk ty None None None None None None None None
                                   None None None None.

Definition agri_status (p : Q) : AgriFrontend.StreamingMessage.t :=
  AgriFrontend.StreamingMessage.mk "status" None (Some p) None None None None
                                   None None None None None None.

Definition agri_chunk (c : string) : AgriFrontend.StreamingMessage.t :=
  AgriFrontend.StreamingMessage.mk "response_chunk" None None None None None
                                   None None None None (Some c) None None.

Definition agri_step (s : string) (i : Z) : AgriFrontend.StreamingMessage.t :=
  AgriFrontend.StreamingMessage.mk "reasoning_step" None None None None None
                                   None None (Some s) (Some i) None None None.

Definition frontend_event (ty : string) (st : option string)
  : Frontend.StreamingMessage.t :=
  Frontend.StreamingMessage.mk ty None None None None None None None st None
                               None None None None None None None None.

(** An entry of [reasoningSteps] that is an object with [completed: true]. *)
Definition step_done (sl : JSArray.slot ReasoningStep.t) : Prop :=
  exists o, sl = JSArray.Elem o /\ ReasoningStep.completed o = Some true.

Definition agri_message (t : Z) (d : AgriFrontend.StreamingMessage.t)
  : AgriFrontend.MessageEvent :=
  AgriFrontend.mkEvent t (Some d).

Definition frontend_message (t : Z) (d : Frontend.StreamingMessage.t)
  : Frontend.MessageEvent :=
  Frontend.mkEvent t (Some d).

(** [p] is a percentage. *)
Definition in_range (p : Q) : Prop := (0 <= p)%Q /\ (p <= 100)%Q.

(** The progress value an event carries, if any, is a percentage. *)
Definition carries_percentage (ev : AgriFrontend.MessageEvent) : Prop :=
  forall d q,
    AgriFrontend.data ev = Some d ->
    AgriFrontend.StreamingMessage.progress d = Some q ->
    in_range q.

(** The array has no hole: every index below its length has a property. *)
Definition dense {A} (a : JSArray.t A) : Prop :=
  Forall (fun sl => sl <> JSArray.Hole) (JSArray.elems a).

(** The words after the first, each behind the space the loop puts back. *)
Fixpoint glue (ws : list string) : string :=
  match ws with
  | [] => ""
  | w :: ws' => " " +:+ w +:+ glue ws'
  end.

(** A reply of the API: the echoed user message and the assistant's answer. *)
Definition sample_reply (question answer : string) : list Fallback.ChatMessage.t :=
  [ Fallback.ChatMessage.mk "m1" "s1" "user" question "2025-06-01T10:00:00Z"
                            None None;
    Fallback.ChatMessage.mk "m2" "s1" "assistant" answer "2025-06-01T10:00:04Z"
                            None None ].

(** A signed-in chat page with a session, a question typed and the given
    messages on screen. *)
Definition chat_ready (shown : list ChatInterface.Message.t) (typed : string)
  : ChatInterface.State :=
  ChatInterface.mkState shown typed (Some "s1") false true.

(** A send whose request is rejected with [e], [elapsed] milliseconds after
    the user message was built at clock 10000. *)
Definition failing_run (e : Fallback.Thrown) (elapsed : Z) : ChatInterface.Run :=
  ChatInterface.mkRun (Fallback.Resolves "s1") (Fallback.Rejects e)
                      10000 (10000 + elapsed).

(** ** The hook as its callers and the browser drive it

    What can happen to the hook of
    [agri-frontend/hooks/useStreamingChat.ts] between mount and unmount: a
    call of [startStreaming] or [stopStreaming], a [message] event or an
    [error] event of one of its [EventSource] objects. *)
Module AgriFrontendRun.

Inductive Event : Type :=
| Start (constructed : bool)
| Message (es : nat) (ev : AgriFrontend.MessageEvent)
| TransportError (es : nat)
| Stop.

Definition step (h : AgriFrontend.Hook) (e : Event) : AgriFrontend.Hook :=
  match e with
  | Start constructed => AgriFrontend.startStreaming constructed h
  | Message es ev => AgriFrontend.message_from es ev h
  | TransportError es => AgriFrontend.onerror es h
  | Stop => AgriFrontend.stopStreaming h
  end.

Definition run (evs : list Event) : AgriFrontend.Hook :=
  fold_left step evs AgriFrontend.initialHook.

End AgriFrontendRun.

(** [a] is an initial part of [b]. *)
Definition is_prefix (a b : string) : Prop := exists rest, b = a +:+ rest.

(** The number of space characters of a string. *)
Fixpoint count_spaces (s : string) : nat :=
  match s with
  | EmptyString => 0
  | String c rest =>
      (if Ascii.eqb c " "%char then 1 else 0) + count_spaces rest
  end%nat.

(** ** The effect of [agri-frontend/app/page.tsx] that settles the
    streamed message *)
Module AgriPage.

(** [interface Message] of the page. *)
Module Message.
Record t : Type := mk {
  id : string;
  role : ChatInterface.Role;
  content : string;
  timestamp : Z;
  confidence_score : option Q;
  detected_topic : option string;
  tools_used : option (list string);
  sources : option (list Source.t);
  reasoning_steps : option (JSArray.t ReasoningStep.t);
  web_search_queries : option (list WebSearchQuery.t);
  is_streaming : option bool
}.
End Message.

(** [{ ...lastMessage, content: ..., is_streaming: false, ... }] *)
Definition settled (s : AgriFrontend.StreamingState) (lastMessage : Message.t)
  : Message.t :=
  Message.mk (Message.id lastMessage) (Message.role lastMessage)
             (AgriFrontend.streamingText s) (Message.timestamp lastMessage)
             (Some (47 # 50)%Q) (Message.detected_topic lastMessage)
             (Message.tools_used lastMessage)
             (Some (AgriFrontend.sources s))
             (Some (AgriFrontend.reasoningSteps s))
             (Some (AgriFrontend.webSearchQueries s))
             (Some false).

(** The updater passed to [setMessages] by the effect. *)
Definition settle_last (s : AgriFrontend.StreamingState) (prev : list Message.t)
  : list Message.t :=
  match last prev with
  | Some lastMessage =>
      if match Message.role lastMessage with
         | ChatInterface.assistant => true
         | ChatInterface.user => false
         end
         && JS.bool_or (Message.is_streaming lastMessage) false
      then removelast prev ++ [settled s lastMessage]
      else prev
  | None => prev
  end.

(** The effect body, run when the streaming state changes. *)
Definition on_streaming_change (s : AgriFrontend.StreamingState)
    (messages : list Message.t) : list Message.t :=
  if JS.truthy_str (Some (AgriFrontend.streamingText s))
     && negb (AgriFrontend.isStreaming s)
  then settle_last s messages
  else messages.

End AgriPage.

(** ** [useChatManager] *)

(** A JSON value, for fields typed [any]. *)
Module Json.
#[local] Unset Elimination Schemes.
Inductive t : Type :=
| null
| bool_ (b : bool)
| number (q : Q)
| string_ (s : string)
| array (l : list t)
| object (fields : list (string * t)).
#[local] Set Elimination Schemes.
End Json.

Module ChatManager.

Import Fallback.

(** [interface ChatSession] of the API client. *)
Module ChatSession.
Record t : Type := mk {
  id : string;
  user_id : string;
  title : string;
  is_active : bool;
  created_at : string;
  updated_at : string;
  ended_at : option string;
  primary_topic : option string;
  location_context : option (list (string * Json.t));
  language_preference : string;
  message_count : Z;
  total_tokens_used : Z;
  satisfaction_rating : option Q
}.
End ChatSession.

(** [interface ChatMessage] of the API client. *)
Module ChatMessage.
Record t : Type := mk {
  id : string;
  session_id : string;
  role : string;
  content : string;
  original_language : option string;
  translated_content : option string;
  created_at : string;
  tokens_used : option Q;
  processing_time : option Q;
  confidence_score : option Q;
  detected_topic : option string;
  expert_consulted : option string;
  tools_used : list string;
  fact_check_status : option string;
  accuracy_score : option Q;
  user_feedback : option string
}.
End ChatMessage.

(** [interface ChatManagerState] *)
Record State : Type := mkState {
  sessions : list ChatSession.t;
  currentSession : option ChatSession.t;
  messages : list ChatMessage.t;
  isLoading : bool;
  error : option string
}.

Definition initialState : State := mkState [] None [] false None.

(** [error instanceof Error ? error.message : fallback] *)
Definition message_of (e : Thrown) (fallback : string) : string :=
  match e with
  | ErrorObject m => m
  | OtherValue => fallback
  end.

(** [prev => ({ ...prev, isLoading: true, error: null })] *)
Definition begin (prev : State) : State :=
  mkState (sessions prev) (currentSession prev) (messages prev) true None.

(** [prev => ({ ...prev, error: ..., isLoading: false })] *)
Definition fail_loading (e : Thrown) (fallback : string) (prev : State) : State :=
  mkState (sessions prev) (currentSession prev) (messages prev) false
          (Some (message_of e fallback)).

(** [prev => ({ ...prev, error: ... })] *)
Definition fail (e : Thrown) (fallback : string) (prev : State) : State :=
  mkState (sessions prev) (currentSession prev) (messages prev) (isLoading prev)
          (Some (message_of e fallback)).

(** [loadSessions]; [response] is the outcome of
    [apiService.getChatSessions()], reduced to its [sessions]. *)
Definition loadSessions (response : Outcome (list ChatSession.t)) (st : State)
  : State :=
  let st1 := begin st in
  match response with
  | Resolves sessions' =>
      mkState sessions' (currentSession st1) (messages st1) false (error st1)
  | Rejects e => fail_loading e "Failed to load sessions" st1
  end.

(** [createSession]; [response] is the outcome of
    [apiService.createChatSession(...)].  On rejection the hook rethrows
    after recording the error. *)
Definition createSession (response : Outcome ChatSession.t) (st : State) : State :=
  let st1 := begin st in
  match response with
  | Resolves newSession =>
      mkState (newSession :: sessions st1) (Some newSession) [] false (error st1)
  | Rejects e => fail_loading e "Failed to create session" st1
  end.

(** [selectSession]; [response] is the outcome of the [Promise.all] of
    [getChatSession] and [getSessionMessages]. *)
Definition selectSession
    (response : Outcome (ChatSession.t * list ChatMessage.t)) (st : State) : State :=
  let st1 := begin st in
  match response with
  | Resolves (session, messages') =>
      mkState (sessions st1) (Some session) messages' false (error st1)
  | Rejects e => fail_loading e "Failed to load session" st1
  end.

(** [sessionId || state.currentSession?.id] *)
Definition targetSessionId (sessionId : option string) (st : State) : option string :=
  if JS.truthy_str sessionId then sessionId
  else match currentSession st with
       | Some s => if JS.truthy_str (Some (ChatSession.id s))
                   then Some (ChatSession.id s) else None
       | None => None
       end.

(** [sendMessage]: without a target session it throws before the request
    is made and before any state is set. *)
Definition sendMessage (sessionId : option string)
    (response : Outcome (list ChatMessage.t)) (st : State) : State :=
  match targetSessionId sessionId st with
  | None => st
  | Some _ =>
      match response with
      | Resolves messages' =>
          mkState (sessions st) (currentSession st) (messages st ++ messages')
                  (isLoading st) (error st)
      | Rejects e => fail e "Failed to send message" st
      end
  end.

(** [prev.currentSession?.id === sessionId] *)
Definition is_current (sessionId : string) (st : State) : bool :=
  match currentSession st with
  | Some s => String.eqb (ChatSession.id s) sessionId
  | None => false
  end.

(** [updateSession] *)
Definition updateSession (sessionId : string) (response : Outcome ChatSession.t)
    (st : State) : State :=
  match response with
  | Resolves updatedSession =>
      mkState
        (List.map (fun s => if String.eqb (ChatSession.id s) sessionId
                            then updatedSession else s)
                  (sessions st))
        (if is_current sessionId st then Some updatedSession else currentSession st)
        (messages st) (isLoading st) (error st)
  | Rejects e => fail e "Failed to update session" st
  end.

(** [deleteSession] *)
Definition deleteSession (sessionId : string) (response : Outcome unit)
    (st : State) : State :=
  match response with
  | Resolves _ =>
      mkState
        (List.filter (fun s => negb (String.eqb (ChatSession.id s) sessionId))
                     (sessions st))
        (if is_current sessionId st then None else currentSession st)
        (if is_current sessionId st then [] else messages st)
        (isLoading st) (error st)
  | Rejects e => fail e "Failed to delete session" st
  end.

(** [clearError] *)
Definition clearError (st : State) : State :=
  mkState (sessions st) (currentSession st) (messages st) (isLoading st) None.

End ChatManager.

(** The invariant: a state that says it is streaming holds an open
    [EventSource] in its ref. *)
Definition live_has_transport (h : AgriFrontend.Hook) : Prop :=
  AgriFrontend.isStreaming (AgriFrontend.streamingState h) = true ->
  exists es,
    AgriFrontend.eventSourceRef h = Some es
    /\ AgriFrontend.eventSources h !! es = Some Live.

(** The text and status of a fact-check step, without its [completed]
    flag. *)
Definition fact_check_key (st : Frontend.FactCheckStep.t) : string * string :=
  (Frontend.FactCheckStep.step st, Frontend.FactCheckStep.status st).

(** The assistant message a run of the request/response hook gets to
    show: there is a token, the request resolves, and the reply holds an
    assistant message. *)
Definition delivered (token : option string)
    (response : Fallback.Outcome (list Fallback.ChatMessage.t))
  : option Fallback.ChatMessage.t :=
  if JS.truthy_str token then
    match response with
    | Fallback.Resolves msgs => Fallback.find_assistant msgs
    | Fallback.Rejects _ => None
    end
  else None.

(** The string has a printable ASCII character (codes 33 to 126): such a
    character is white space under no reading, so [trim()] leaves it. *)
Fixpoint has_printable (s : string) : bool :=
  match s with
  | EmptyString => false
  | String c rest =>
      (let n := nat_of_ascii c in (33 <=? n) && (n <=? 126))%nat
      || has_printable rest
  end.

(** The assistant messages of a message list, in order. *)
Definition assistants (l : list ChatInterface.Message.t) : list ChatInterface.Message.t :=
  List.filter
    (fun m => match ChatInterface.Message.role m with
              | ChatInterface.assistant => true
              | ChatInterface.user => false
              end) l.

(** A session as the server returns it for a new chat. *)
Definition sample_session (id title : string) : ChatManager.ChatSession.t :=
  ChatManager.ChatSession.mk id "u1" title true "2025-06-01T10:00:00Z"
                             "2025-06-01T10:00:00Z" None None None "english"
                             0 0 None.

(** * Properties *)

(** ** JavaScript helpers *)

Lemma str_or_empty (x : option string) :
  JS.str_or x "" = match x with Some s => s | None => "" end.
Proof.
  destruct x as [s|]; simpl; [|reflexivity].
  destruct (String.eqb_spec s ""); congruence.
Qed.

Lemma truthy_str_Some (x : option string) :
  JS.truthy_str x = true -> exists s, x = Some s /\ s <> "".
Proof.
  destruct x as [s|]; simpl; [|discriminate].
  destruct (String.eqb_spec s ""); [discriminate|]. eauto.
Qed.

Lemma truthy_str_intro (s : string) : s <> "" -> JS.truthy_str (Some s) = true.
Proof.
  intros Hs. simpl. destruct (String.eqb_spec s ""); [contradiction|reflexivity].
Qed.

Lemma agri_case_of_other (ty : string) :
  ~ In ty agri_cases -> AgriFrontend.case_of ty = AgriFrontend.no_case.
Proof.
  intros Hnot. unfold AgriFrontend.case_of.
  repeat match goal with
         | |- context [String.eqb ty ?lit] =>
             destruct (String.eqb_spec ty lit) as [->|_];
             [exfalso; apply Hnot; simpl; tauto|]
         end.
  reflexivity.
Qed.

Lemma frontend_case_of_other (ty : string) :
  ~ In ty frontend_cases -> Frontend.case_of ty = Frontend.no_case.
Proof.
  intros Hnot. unfold Frontend.case_of.
  repeat match goal with
         | |- context [String.eqb ty ?lit] =>
             destruct (String.eqb_spec ty lit) as [->|_];
             [exfalso; apply Hnot; simpl; tauto|]
         end.
  reflexivity.
Qed.

(** Unfolding the [switch] at a known tag. *)
Ltac at_case H :=
  unfold AgriFrontend.fold, Frontend.fold; rewrite H;
  match goal with
  | |- context [AgriFrontend.case_of ?lit] =>
      let c := eval vm_compute in (AgriFrontend.case_of lit) in
      change (AgriFrontend.case_of lit) with c
  | |- context [Frontend.case_of ?lit] =>
      let c := eval vm_compute in (Frontend.case_of lit) in
      change (Frontend.case_of lit) with c
  end; cbv beta iota.

(** ** C5: a chunk replaces the text *)

(** C5. Folding a [response_chunk] event sets [streamingText] to the
    event's chunk, whatever the text was before, and to the empty string
    when the event carries no chunk; this holds in both hooks. *)
Theorem response_chunk_replaces_text :
  (forall now prev data,
      AgriFrontend.StreamingMessage.type data = "response_chunk" ->
      AgriFrontend.streamingText (AgriFrontend.fold now prev data)
      = match AgriFrontend.StreamingMessage.chunk data with
        | Some c => c
        | None => ""
        end)
  /\
  (forall now prev data,
      Frontend.StreamingMessage.type data = "response_chunk" ->
      Frontend.streamingText (Frontend.fold now prev data)
      = match Frontend.StreamingMessage.chunk data with
        | Some c => c
        | None => ""
        end).
Proof.
  split; intros now prev data Hty; at_case Hty; simpl; apply str_or_empty.
Qed.

Lemma response_chunk_replaces_text_example :
  AgriFrontend.streamingText
    (AgriFrontend.fold 0
       (AgriFrontend.set_streamingText "Plant" AgriFrontend.resetState)
       (agri_chunk "Plant rice"))
  = "Plant rice".
Proof.
  exact (proj1 response_chunk_replaces_text 0
           (AgriFrontend.set_streamingText "Plant" AgriFrontend.resetState)
           (agri_chunk "Plant rice") eq_refl).
Defined.

(** ** C10: events without a case *)

(** C10 (as amended). An event whose type tag has no [case] in the
    [switch] is folded to the previous state, unchanged in every field.  In
    [agri-frontend/hooks/useStreamingChat.ts] the cases are the eleven tags
    of [agri_cases]; the extended hook has two more, [ai_step] and
    [fact_check_step]. *)
Theorem unrecognised_event_is_noop :
  (forall now prev data,
      ~ In (AgriFrontend.StreamingMessage.type data) agri_cases ->
      AgriFrontend.fold now prev data = prev)
  /\
  (forall now prev data,
      ~ In (Frontend.StreamingMessage.type data) frontend_cases ->
      Frontend.fold now prev data = prev).
Proof.
  split; intros now prev data Hnot.
  - unfold AgriFrontend.fold. now rewrite (agri_case_of_other _ Hnot).
  - unfold Frontend.fold. now rewrite (frontend_case_of_other _ Hnot).
Qed.

Lemma unrecognised_event_is_noop_example :
  AgriFrontend.fold 0 AgriFrontend.resetState (agri_event "heartbeat")
  = AgriFrontend.resetState
  /\ Frontend.fold 0 Frontend.resetState (frontend_event "heartbeat" None)
     = Frontend.resetState.
Proof.
  split.
  - apply (proj1 unrecognised_event_is_noop). vm_compute.
    intros H; repeat destruct H as [H|H]; try discriminate H; exact H.
  - apply (proj2 unrecognised_event_is_noop). vm_compute.
    intros H; repeat destruct H as [H|H]; try discriminate H; exact H.
Defined.

(** C10 (as stated) fails on the extended hook: [ai_step] is none of the
    eleven listed tags, and folding it changes [phaseTitle]. *)
Lemma ai_step_event_is_folded :
  ~ In "ai_step" agri_cases
  /\ Frontend.phaseTitle
       (Frontend.fold 0 Frontend.resetState
          (frontend_event "ai_step" (Some "Checking soil data")))
     = "Checking soil data"
  /\ Frontend.fold 0 Frontend.resetState
       (frontend_event "ai_step" (Some "Checking soil data"))
     <> Frontend.resetState.
Proof.
  split; [|split].
  - simpl. intros H; repeat destruct H as [H|H]; try discriminate H; exact H.
  - reflexivity.
  - intros H. apply (f_equal Frontend.phaseTitle) in H. discriminate H.
Qed.

(** ** C2: the completion event *)

Lemma map_complete_present (a : JSArray.t ReasoningStep.t) :
  Forall step_done (JSArray.present (JSArray.map ReasoningStep.complete a)).
Proof.
  destruct a as [l p]. unfold JSArray.present, JSArray.map. simpl. clear p.
  induction l as [|sl l IH]; simpl; [constructor|].
  destruct sl as [| |o]; simpl; auto; constructor; auto.
  - exists (ReasoningStep.complete None). split; reflexivity.
  - exists (ReasoningStep.complete (Some o)). split; reflexivity.
Qed.

Lemma agri_completion_fold now prev data :
  AgriFrontend.StreamingMessage.type data = "completion" ->
  let s := AgriFrontend.fold now prev data in
  AgriFrontend.isStreaming s = false
  /\ AgriFrontend.progress s = 100%Q
  /\ Forall step_done (JSArray.present (AgriFrontend.reasoningSteps s)).
Proof.
  intros Hty. at_case Hty. simpl. repeat split. apply map_complete_present.
Qed.

Lemma frontend_completion_fold now prev data :
  Frontend.StreamingMessage.type data = "completion" ->
  let s := Frontend.fold now prev data in
  Frontend.isStreaming s = false
  /\ Frontend.progress s = 100%Q
  /\ Forall step_done (JSArray.present (Frontend.reasoningSteps s)).
Proof.
  intros Hty. at_case Hty. simpl. repeat split. apply map_complete_present.
Qed.

(** C2. Whatever events came before, and however many reasoning steps they
    left completed, a sequence of events that ends with a [completion]
    event leaves [isStreaming = false], [progress = 100] and every entry
    present in [reasoningSteps] with [completed = true]; in both hooks. *)
Theorem completion_ends_stream :
  (forall evs t c s,
      AgriFrontend.StreamingMessage.type c = "completion" ->
      let s' := fold_left AgriFrontend.onmessage (evs ++ [agri_message t c]) s in
      AgriFrontend.isStreaming s' = false
      /\ AgriFrontend.progress s' = 100%Q
      /\ Forall step_done (JSArray.present (AgriFrontend.reasoningSteps s')))
  /\
  (forall evs t c s,
      Frontend.StreamingMessage.type c = "completion" ->
      let s' := fold_left Frontend.onmessage (evs ++ [frontend_message t c]) s in
      Frontend.isStreaming s' = false
      /\ Frontend.progress s' = 100%Q
      /\ Forall step_done (JSArray.present (Frontend.reasoningSteps s'))).
Proof.
  split; intros evs t c s Hty; rewrite fold_left_app; simpl.
  - apply agri_completion_fold; assumption.
  - apply frontend_completion_fold; assumption.
Qed.

Lemma completion_ends_stream_example :
  let s' :=
    fold_left AgriFrontend.onmessage
      ([agri_message 1 (agri_step "Check the season" 1);
        agri_message 2 (agri_step "Compare varieties" 3)]
         ++ [agri_message 3 (agri_event "completion")])
      AgriFrontend.resetState in
  AgriFrontend.isStreaming s' = false
  /\ AgriFrontend.progress s' = 100%Q
  /\ Forall step_done (JSArray.present (AgriFrontend.reasoningSteps s')).
Proof.
  exact (proj1 completion_ends_stream
           [agri_message 1 (agri_step "Check the season" 1);
            agri_message 2 (agri_step "Compare varieties" 3)]
           3 (agri_event "completion") AgriFrontend.resetState eq_refl).
Defined.

(** ** C1: after an [error] event *)

Lemma agri_fold_stays_stopped now s d :
  AgriFrontend.isStreaming s = false ->
  AgriFrontend.isStreaming (AgriFrontend.fold now s d) = false.
Proof.
  intros Hs. unfold AgriFrontend.fold.
  destruct (AgriFrontend.case_of _); simpl; auto;
    repeat match goal with
           | |- context [match ?x with _ => _ end] => destruct x; simpl; auto
           end.
Qed.

Lemma agri_fold_keeps_error now s d :
  AgriFrontend.error s <> None ->
  AgriFrontend.error (AgriFrontend.fold now s d) <> None.
Proof.
  intros Hs. unfold AgriFrontend.fold.
  destruct (AgriFrontend.case_of _); simpl; auto;
    repeat match goal with
           | |- context [match ?x with _ => _ end] => destruct x; simpl; auto
           end; discriminate.
Qed.

Lemma frontend_fold_stays_stopped now s d :
  Frontend.isStreaming s = false ->
  Frontend.isStreaming (Frontend.fold now s d) = false.
Proof.
  intros Hs. unfold Frontend.fold.
  destruct (Frontend.case_of _); simpl; auto;
    repeat match goal with
           | |- context [match ?x with _ => _ end] => destruct x; simpl; auto
           end.
Qed.

Lemma frontend_fold_keeps_error now s d :
  Frontend.error s <> None ->
  Frontend.error (Frontend.fold now s d) <> None.
Proof.
  intros Hs. unfold Frontend.fold.
  destruct (Frontend.case_of _); simpl; auto;
    repeat match goal with
           | |- context [match ?x with _ => _ end] => destruct x; simpl; auto
           end; discriminate.
Qed.

Lemma agri_stopped_forever evs : forall s,
  AgriFrontend.isStreaming s = false -> AgriFrontend.error s <> None ->
  let s' := fold_left AgriFrontend.onmessage evs s in
  AgriFrontend.isStreaming s' = false /\ AgriFrontend.error s' <> None.
Proof.
  induction evs as [|ev evs IH]; intros s Hs He; simpl; [auto|].
  apply IH; unfold AgriFrontend.onmessage; destruct (AgriFrontend.data ev); auto.
  - now apply agri_fold_stays_stopped.
  - now apply agri_fold_keeps_error.
Qed.

Lemma frontend_stopped_forever evs : forall s,
  Frontend.isStreaming s = false -> Frontend.error s <> None ->
  let s' := fold_left Frontend.onmessage evs s in
  Frontend.isStreaming s' = false /\ Frontend.error s' <> None.
Proof.
  induction evs as [|ev evs IH]; intros s Hs He; simpl; [auto|].
  apply IH; unfold Frontend.onmessage; destruct (Frontend.data ev).
  - now apply frontend_fold_stays_stopped.
  - reflexivity.
  - now apply frontend_fold_keeps_error.
  - discriminate.
Qed.

(** C1 (as amended). Folding an [error] event sets [error] non-null and
    [isStreaming] false, and these two facts survive every further event
    handled by [onmessage]: no fold sets [isStreaming] back to true or
    [error] back to null.  The other fields are not frozen; later events are
    folded by the same rules as before. *)
Theorem error_event_stops_stream_for_good :
  (forall now s err evs,
      AgriFrontend.StreamingMessage.type err = "error" ->
      let s1 := AgriFrontend.fold now s err in
      let s2 := fold_left AgriFrontend.onmessage evs s1 in
      (AgriFrontend.isStreaming s1 = false /\ AgriFrontend.error s1 <> None)
      /\ (AgriFrontend.isStreaming s2 = false /\ AgriFrontend.error s2 <> None))
  /\
  (forall now s err evs,
      Frontend.StreamingMessage.type err = "error" ->
      let s1 := Frontend.fold now s err in
      let s2 := fold_left Frontend.onmessage evs s1 in
      (Frontend.isStreaming s1 = false /\ Frontend.error s1 <> None)
      /\ (Frontend.isStreaming s2 = false /\ Frontend.error s2 <> None)).
Proof.
  split; intros now s err evs Hty.
  - assert (H1 : AgriFrontend.isStreaming (AgriFrontend.fold now s err) = false
                 /\ AgriFrontend.error (AgriFrontend.fold now s err) <> None).
    { at_case Hty. simpl. split; [reflexivity|discriminate]. }
    cbv zeta. split; [exact H1|].
    destruct H1. now apply agri_stopped_forever.
  - assert (H1 : Frontend.isStreaming (Frontend.fold now s err) = false
                 /\ Frontend.error (Frontend.fold now s err) <> None).
    { at_case Hty. simpl. split; [reflexivity|discriminate]. }
    cbv zeta. split; [exact H1|].
    destruct H1. now apply frontend_stopped_forever.
Qed.

Lemma error_event_stops_stream_for_good_example :
  let s1 := AgriFrontend.fold 0 AgriFrontend.resetState (agri_event "error") in
  let s2 :=
    fold_left AgriFrontend.onmessage
      [agri_message 1 (agri_status 40); agri_message 2 (agri_chunk "Sow")] s1 in
  (AgriFrontend.isStreaming s1 = false /\ AgriFrontend.error s1 <> None)
  /\ (AgriFrontend.isStreaming s2 = false /\ AgriFrontend.error s2 <> None).
Proof.
  exact (proj1 error_event_stops_stream_for_good 0 AgriFrontend.resetState
           (agri_event "error")
           [agri_message 1 (agri_status 40); agri_message 2 (agri_chunk "Sow")]
           eq_refl).
Defined.

(** C1 (as stated) fails: after an [error] event a [status] event still
    overwrites [progress], and a chunk still replaces the text. *)
Lemma fold_continues_after_error :
  let s1 := AgriFrontend.fold 0 AgriFrontend.resetState (agri_event "error") in
  AgriFrontend.error s1 = Some "An error occurred"
  /\ AgriFrontend.isStreaming s1 = false
  /\ AgriFrontend.progress s1 = 0%Q
  /\ AgriFrontend.progress (AgriFrontend.fold 1 s1 (agri_status 40)) = 40%Q
  /\ AgriFrontend.streamingText (AgriFrontend.fold 2 s1 (agri_chunk "Sow")) = "Sow"
  /\ AgriFrontend.fold 1 s1 (agri_status 40) <> s1.
Proof.
  cbv zeta. repeat split; try reflexivity.
  intros H. apply (f_equal AgriFrontend.progress) in H. vm_compute in H.
  discriminate H.
Qed.

(** ** C7: [stopStreaming] *)

(** C7. [stopStreaming] sets [isStreaming] to false, closes the
    [EventSource] held by the ref and clears the ref; every other field of
    the state is left as it was, and when [isStreaming] was already false
    the whole [StreamingState] is unchanged. *)
Theorem stopStreaming_keeps_partial_answer (h : AgriFrontend.Hook) :
  let h' := AgriFrontend.stopStreaming h in
  let s := AgriFrontend.streamingState h in
  let s' := AgriFrontend.streamingState h' in
  AgriFrontend.isStreaming s' = false
  /\ AgriFrontend.eventSourceRef h' = None
  /\ (forall es, AgriFrontend.eventSourceRef h = Some es ->
                 AgriFrontend.eventSources h' !! es = Some Closed)
  /\ (AgriFrontend.progress s' = AgriFrontend.progress s
      /\ AgriFrontend.currentPhase s' = AgriFrontend.currentPhase s
      /\ AgriFrontend.phaseTitle s' = AgriFrontend.phaseTitle s
      /\ AgriFrontend.streamingText s' = AgriFrontend.streamingText s
      /\ AgriFrontend.sources s' = AgriFrontend.sources s
      /\ AgriFrontend.reasoningSteps s' = AgriFrontend.reasoningSteps s
      /\ AgriFrontend.webSearchQueries s' = AgriFrontend.webSearchQueries s
      /\ AgriFrontend.factCheckStatus s' = AgriFrontend.factCheckStatus s
      /\ AgriFrontend.error s' = AgriFrontend.error s)
  /\ (AgriFrontend.isStreaming s = false -> s' = s).
Proof.
  destruct h as [s ref ess]. unfold AgriFrontend.stopStreaming. simpl.
  split; [|split; [|split; [|split]]].
  - destruct ref; reflexivity.
  - destruct ref; reflexivity.
  - intros es ->. simpl. apply lookup_insert_eq.
  - destruct ref; simpl; repeat split.
  - intros Hs. destruct ref; simpl; destruct s; simpl in *; subst; reflexivity.
Qed.

(** Only the [EventSource] held by the ref is closed. *)
Lemma stopStreaming_other_sources (h : AgriFrontend.Hook) (es : nat) :
  AgriFrontend.eventSourceRef h <> Some es ->
  AgriFrontend.eventSources (AgriFrontend.stopStreaming h) !! es
  = AgriFrontend.eventSources h !! es.
Proof.
  destruct h as [s ref ess]. unfold AgriFrontend.stopStreaming. simpl.
  intros Hne. destruct ref as [es'|]; simpl; [|reflexivity].
  apply lookup_insert_ne. congruence.
Qed.

(** ** C3: [startStreaming] while a stream is live *)

(** C3 (as amended). [startStreaming] has no guard on [isStreaming]: in
    every state, live or not, a call resets the view model and is never
    rejected.  When the [EventSource] is constructed the state is the reset
    one with [isStreaming = true], a new [EventSource] is opened and stored
    in the ref.  When the construction throws, the [catch] leaves the reset
    state with [error = "Failed to start streaming"] and
    [isStreaming = false], opens nothing and leaves the ref as it was.  In
    both cases the [EventSource] objects opened before stay as they were,
    and an event from one that is still open is folded into the state the
    call left. *)
Theorem startStreaming_always_restarts (h : AgriFrontend.Hook) :
  (let h' := AgriFrontend.startStreaming true h in
   AgriFrontend.streamingState h' = AgriFrontend.resetState
   /\ exists es,
       AgriFrontend.eventSourceRef h' = Some es
       /\ AgriFrontend.eventSources h !! es = None
       /\ AgriFrontend.eventSources h' !! es = Some Live
       /\ (forall old, old <> es ->
             AgriFrontend.eventSources h' !! old
             = AgriFrontend.eventSources h !! old)
       /\ (forall old ev,
             AgriFrontend.eventSources h !! old = Some Live ->
             AgriFrontend.streamingState (AgriFrontend.message_from old ev h')
             = AgriFrontend.onmessage AgriFrontend.resetState ev))
  /\
  (let h' := AgriFrontend.startStreaming false h in
   AgriFrontend.streamingState h'
   = AgriFrontend.mkState false 0%Q "" "" [] JSArray.empty [] "" ""
                          (Some "Failed to start streaming")
   /\ AgriFrontend.eventSourceRef h' = AgriFrontend.eventSourceRef h
   /\ AgriFrontend.eventSources h' = AgriFrontend.eventSources h
   /\ (forall old ev,
         AgriFrontend.eventSources h !! old = Some Live ->
         AgriFrontend.streamingState (AgriFrontend.message_from old ev h')
         = AgriFrontend.onmessage (AgriFrontend.streamingState h') ev)).
Proof.
  destruct h as [s ref ess]. unfold AgriFrontend.startStreaming. simpl. split.
  - split; [reflexivity|].
    exists (fresh (dom ess)).
    assert (Hfresh : ess !! fresh (dom ess) = None).
    { apply not_elem_of_dom. apply is_fresh. }
    split; [reflexivity|]. split; [exact Hfresh|].
    split; [apply lookup_insert_eq|].
    split.
    + intros old Hne. apply lookup_insert_ne. congruence.
    + intros old ev Hold. unfold AgriFrontend.message_from. simpl.
      rewrite lookup_insert_ne by (intros Heq; rewrite <- Heq in Hold; congruence).
      rewrite Hold. reflexivity.
  - split; [reflexivity|]. split; [reflexivity|]. split; [reflexivity|].
    intros old ev Hold. unfold AgriFrontend.message_from. simpl.
    rewrite Hold. reflexivity.
Qed.

(** C3 (as stated) fails: with the first stream live and its text on
    screen, a second [startStreaming] clears the text, opens a second
    [EventSource] next to the first, and events of the two are then folded
    into the one state in arrival order. *)
Lemma second_start_is_not_rejected :
  let h1 :=
    AgriFrontend.message_from 0 (agri_message 1 (agri_chunk "Sow rice"))
      (AgriFrontend.startStreaming true AgriFrontend.initialHook) in
  let h2 := AgriFrontend.startStreaming true h1 in
  let h3 :=
    AgriFrontend.message_from 1 (agri_message 3 (agri_status 10))
      (AgriFrontend.message_from 0 (agri_message 2 (agri_chunk "Sow rice in June"))
         h2) in
  (AgriFrontend.isStreaming (AgriFrontend.streamingState h1) = true
   /\ AgriFrontend.streamingText (AgriFrontend.streamingState h1) = "Sow rice")
  /\ (AgriFrontend.streamingState h2 = AgriFrontend.resetState
      /\ AgriFrontend.streamingState h2 <> AgriFrontend.streamingState h1
      /\ AgriFrontend.eventSources h1 !! 1%nat = None
      /\ AgriFrontend.eventSources h2 !! 1%nat = Some Live
      /\ AgriFrontend.eventSources h2 !! 0%nat = Some Live
      /\ AgriFrontend.eventSourceRef h2 = Some 1%nat)
  /\ (AgriFrontend.streamingText (AgriFrontend.streamingState h3)
      = "Sow rice in June"
      /\ AgriFrontend.progress (AgriFrontend.streamingState h3) = 10%Q).
Proof.
  cbv zeta. split; [split; reflexivity|]. split; [|split; reflexivity].
  split; [reflexivity|]. split; [|repeat split; reflexivity].
  intros H. apply (f_equal AgriFrontend.streamingText) in H. discriminate H.
Qed.

(** ** C4: the progress field *)

Lemma num_or_cases (x : option Q) (d : Q) :
  (JS.num_or x d = d /\ (x = None \/ exists q, x = Some q /\ (q == 0)%Q))
  \/ (exists q, x = Some q /\ JS.num_or x d = q).
Proof.
  destruct x as [q|]; simpl; [|left; auto].
  destruct (Qeq_bool q 0) eqn:E; [left|right; eauto].
  split; [reflexivity|]. right. exists q. split; [reflexivity|].
  now apply Qeq_bool_iff.
Qed.

(** What a fold can do to [progress]: keep it, take the value the event
    carries, fall back to 0 on a [status] event without one, or set 100 on
    [completion]. *)
Lemma agri_fold_progress now s d :
  let p' := AgriFrontend.progress (AgriFrontend.fold now s d) in
  p' = AgriFrontend.progress s
  \/ (exists q, AgriFrontend.StreamingMessage.progress d = Some q /\ p' = q)
  \/ (AgriFrontend.case_of (AgriFrontend.StreamingMessage.type d)
        = AgriFrontend.status_
      /\ p' = 0%Q
      /\ (AgriFrontend.StreamingMessage.progress d = None
          \/ exists q, AgriFrontend.StreamingMessage.progress d = Some q
                       /\ (q == 0)%Q))
  \/ (AgriFrontend.case_of (AgriFrontend.StreamingMessage.type d)
        = AgriFrontend.completion
      /\ p' = 100%Q).
Proof.
  unfold AgriFrontend.fold.
  destruct (AgriFrontend.case_of _) eqn:Hc; simpl; auto.
  - destruct (num_or_cases (AgriFrontend.StreamingMessage.progress d) 0%Q)
      as [[-> H]|[q [Hq ->]]]; [right; right; left; auto|right; left; eauto].
  - destruct (num_or_cases (AgriFrontend.StreamingMessage.progress d)
                (AgriFrontend.progress s))
      as [[-> H]|[q [Hq ->]]]; [left; auto|right; left; eauto].
  - destruct (num_or_cases (AgriFrontend.StreamingMessage.progress d)
                (AgriFrontend.progress s))
      as [[-> H]|[q [Hq ->]]]; [left; auto|right; left; eauto].
  - destruct (AgriFrontend.StreamingMessage.index d); [|auto].
    match goal with |- context [if ?b then _ else _] => destruct b end; auto.
  - destruct (AgriFrontend.StreamingMessage.query d) as [q|]; [|auto].
    match goal with |- context [if ?b then _ else _] => destruct b end; auto.
  - destruct (num_or_cases (AgriFrontend.StreamingMessage.progress d)
                (AgriFrontend.progress s))
      as [[-> H]|[q [Hq ->]]]; [left; auto|right; left; eauto].
Qed.

Lemma agri_fold_in_range now s d :
  in_range (AgriFrontend.progress s) ->
  (forall q, AgriFrontend.StreamingMessage.progress d = Some q -> in_range q) ->
  in_range (AgriFrontend.progress (AgriFrontend.fold now s d)).
Proof.
  intros Hs Hd.
  destruct (agri_fold_progress now s d)
    as [->|[[q [Hq ->]]|[[_ [-> _]]|[_ ->]]]]; auto;
    split; compute; discriminate.
Qed.

(** C4 (as amended). The fold copies the progress an event carries, so the
    field is only as well behaved as the events: over any sequence whose
    carried progress values lie in [0, 100] it stays in [0, 100]; and one
    fold does not decrease it when the previous value is at most 100, the
    value the event carries (if any) is at least the previous one, and a
    [status] event carries one.  Nothing else keeps it from going down. *)
Theorem progress_follows_events :
  (forall evs s,
      in_range (AgriFrontend.progress s) ->
      Forall carries_percentage evs ->
      in_range (AgriFrontend.progress (fold_left AgriFrontend.onmessage evs s)))
  /\
  (forall now s d,
      (AgriFrontend.progress s <= 100)%Q ->
      (forall q, AgriFrontend.StreamingMessage.progress d = Some q ->
                 (AgriFrontend.progress s <= q)%Q) ->
      (AgriFrontend.StreamingMessage.type d = "status" ->
       AgriFrontend.StreamingMessage.progress d <> None) ->
      (AgriFrontend.progress s
       <= AgriFrontend.progress (AgriFrontend.fold now s d))%Q).
Proof.
  split.
  - induction evs as [|ev evs IH]; intros s Hs Hevs; simpl; [exact Hs|].
    inversion Hevs as [|? ? Hev Hrest]; subst.
    apply IH; [|exact Hrest].
    unfold AgriFrontend.onmessage.
    destruct (AgriFrontend.data ev) as [d|] eqn:Hd; [|exact Hs].
    apply agri_fold_in_range; [exact Hs|].
    intros q Hq. exact (Hev d q Hd Hq).
  - intros now s d Hs Hd Hstatus.
    destruct (agri_fold_progress now s d)
      as [->|[[q [Hq ->]]|[[Hc [-> Hz]]|[_ ->]]]].
    + apply Qle_refl.
    + auto.
    + destruct Hz as [Hnone|[q [Hq Hq0]]].
      * exfalso. apply Hstatus; [|exact Hnone].
        unfold AgriFrontend.case_of in Hc.
        destruct (String.eqb_spec (AgriFrontend.StreamingMessage.type d) "status");
          [assumption|].
        repeat match type of Hc with
               | (if ?b then _ else _) = _ => destruct b; try discriminate Hc
               end.
      * rewrite <- Hq0. auto.
    + exact Hs.
Qed.

Lemma progress_follows_events_example :
  in_range
    (AgriFrontend.progress
       (fold_left AgriFrontend.onmessage
          [agri_message 1 (agri_status 20); agri_message 2 (agri_status 60)]
          AgriFrontend.resetState))
  /\ (AgriFrontend.progress
        (AgriFrontend.fold 1 AgriFrontend.resetState (agri_status 20))
      <= AgriFrontend.progress
           (AgriFrontend.fold 2
              (AgriFrontend.fold 1 AgriFrontend.resetState (agri_status 20))
              (agri_status 60)))%Q.
Proof.
  split.
  - apply (proj1 progress_follows_events).
    + split; compute; discriminate.
    + constructor; [|constructor; [|constructor]];
        intros d q Hd Hq; vm_compute in Hd; injection Hd as <-;
        vm_compute in Hq; injection Hq as <-; split; compute; discriminate.
  - apply (proj2 progress_follows_events).
    + compute; discriminate.
    + intros q Hq. vm_compute in Hq. injection Hq as <-. compute. discriminate.
    + intros _. discriminate.
Defined.

(** C4 (as stated) fails: a [status] event with a smaller value lowers
    [progress], a [status] event without one resets it to 0, and a value
    above 100 is stored as it comes. *)
Lemma progress_can_decrease :
  let s50 := AgriFrontend.fold 1 AgriFrontend.resetState (agri_status 50) in
  AgriFrontend.progress s50 = 50%Q
  /\ AgriFrontend.progress (AgriFrontend.fold 2 s50 (agri_status 10)) = 10%Q
  /\ (AgriFrontend.progress (AgriFrontend.fold 2 s50 (agri_status 10))
      < AgriFrontend.progress s50)%Q
  /\ AgriFrontend.progress (AgriFrontend.fold 2 s50 (agri_event "status")) = 0%Q
  /\ AgriFrontend.progress (AgriFrontend.fold 2 s50 (agri_status 250)) = 250%Q.
Proof.
  cbv zeta. repeat split; reflexivity.
Qed.

(** ** C6: reasoning steps are written by index *)

Section ArrayFacts.
Context {A : Type}.
Implicit Types (l : list (JSArray.slot A)) (x : A) (i j : nat).

Lemma lookup_map_fill l j :
  List.map JSArray.fill l !! j = JSArray.fill <$> l !! j.
Proof.
  revert j. induction l as [|sl l IH]; intros [|j]; simpl; auto.
Qed.

Lemma length_write l i x :
  List.length (JSArray.write l i x) = Nat.max (List.length l) (S i).
Proof.
  unfold JSArray.write. destruct (Nat.ltb_spec i (List.length l)).
  - rewrite length_insert. lia.
  - rewrite !length_app, length_replicate. simpl. lia.
Qed.

Lemma lookup_write_eq l i x : JSArray.write l i x !! i = Some (JSArray.Elem x).
Proof.
  unfold JSArray.write. destruct (Nat.ltb_spec i (List.length l)).
  - now apply list_lookup_insert_eq.
  - rewrite lookup_app_r by lia.
    rewrite lookup_app_r by (rewrite length_replicate; lia).
    rewrite length_replicate.
    replace (i - List.length l - (i - List.length l))%nat with 0%nat by lia.
    reflexivity.
Qed.

(** Away from [i] a write leaves the slots in range as they were and puts
    holes, if anything, past the old end. *)
Lemma lookup_write_ne l i j x :
  j <> i ->
  JSArray.write l i x !! j = l !! j
  \/ (l !! j = None /\ JSArray.write l i x !! j = Some JSArray.Hole).
Proof.
  intros Hne. unfold JSArray.write. destruct (Nat.ltb_spec i (List.length l)).
  - left. now apply list_lookup_insert_ne.
  - destruct (Nat.lt_ge_cases j (List.length l)) as [Hj|Hj].
    + left. now rewrite lookup_app_l.
    + rewrite lookup_app_r by lia.
      destruct (Nat.lt_ge_cases j i) as [Hji|Hji].
      * right. split; [now apply lookup_ge_None|].
        rewrite lookup_app_l by (rewrite length_replicate; lia).
        apply lookup_replicate. split; [reflexivity|lia].
      * left. rewrite lookup_app_r by (rewrite length_replicate; lia).
        rewrite length_replicate.
        rewrite (lookup_ge_None_2 l j) by lia.
        apply lookup_ge_None_2. simpl. lia.
Qed.

Lemma write_same l i x :
  l !! i = Some (JSArray.Elem x) -> JSArray.write l i x = l.
Proof.
  intros Hl. unfold JSArray.write.
  assert (i < List.length l)%nat by (eapply lookup_lt_Some; eauto).
  destruct (Nat.ltb_spec i (List.length l)); [|lia].
  now apply list_insert_id.
Qed.

Lemma map_fill_no_hole l :
  Forall (fun sl => sl <> JSArray.Hole) l -> List.map JSArray.fill l = l.
Proof.
  induction 1 as [|sl l Hsl _ IH]; simpl; [reflexivity|].
  rewrite IH. cbv beta in Hsl. destruct sl; simpl; congruence.
Qed.

Lemma no_hole_map_fill l :
  Forall (fun sl => sl <> JSArray.Hole) (List.map JSArray.fill l).
Proof.
  induction l as [|sl l IH]; simpl; constructor; auto.
  destruct sl; discriminate.
Qed.

Lemma no_hole_write l i x :
  (i <= List.length l)%nat ->
  Forall (fun sl => sl <> JSArray.Hole) l ->
  Forall (fun sl => sl <> JSArray.Hole) (JSArray.write l i x).
Proof.
  intros Hi Hl. unfold JSArray.write.
  destruct (Nat.ltb_spec i (List.length l)).
  - apply Forall_insert; [exact Hl|discriminate].
  - replace (i - List.length l)%nat with 0%nat by lia. simpl.
    apply Forall_app. split; [exact Hl|]. constructor; [discriminate|constructor].
Qed.

(** Reading through a spread: a hole and [undefined] both read as
    [undefined]. *)
Lemma get_spread (a : JSArray.t A) j :
  JSArray.get (JSArray.spread a) j = JSArray.get a j.
Proof.
  unfold JSArray.get, JSArray.spread. simpl. rewrite lookup_map_fill.
  destruct (JSArray.elems a !! j) as [[| |x]|]; reflexivity.
Qed.

End ArrayFacts.

Lemma agri_reasoning_step_fold now s d i :
  AgriFrontend.StreamingMessage.type d = "reasoning_step" ->
  JS.truthy_str (AgriFrontend.StreamingMessage.step d) = true ->
  AgriFrontend.StreamingMessage.index d = Some i ->
  JSArray.is_index i = true ->
  AgriFrontend.fold now s d
  = AgriFrontend.set_reasoningSteps
      (JSArray.mk
         (JSArray.write
            (List.map JSArray.fill (JSArray.elems (AgriFrontend.reasoningSteps s)))
            (Z.to_nat i)
            (ReasoningStep.mk (AgriFrontend.StreamingMessage.step d) (Some i)
                              (Some false)))
         ∅)
      s.
Proof.
  intros Hty Hstep Hidx Hi. at_case Hty. rewrite Hidx, Hstep.
  unfold JSArray.set, JSArray.spread. rewrite Hi. reflexivity.
Qed.

(** C6 (as amended). Folding a [reasoning_step] event whose step text [st]
    is not empty and whose index [i] is an array index stores
    [{step: st, index: i, completed: false}] at position [i]; every other
    position reads as it did before, the length becomes the larger of the
    old length and [i + 1], and no other field changes.  Folding the same
    event a second time changes nothing that can be read by index: it
    yields the state of the first fold with its array spread once more, so
    the holes an out-of-order index left now hold [undefined]; when [i] is
    at most the old length there are no holes and the two states are
    equal. *)
Theorem reasoning_step_upserts now s d st i :
  AgriFrontend.StreamingMessage.type d = "reasoning_step" ->
  AgriFrontend.StreamingMessage.step d = Some st ->
  st <> "" ->
  AgriFrontend.StreamingMessage.index d = Some i ->
  JSArray.is_index i = true ->
  let entry := ReasoningStep.mk (Some st) (Some i) (Some false) in
  let s1 := AgriFrontend.fold now s d in
  let s2 := AgriFrontend.fold now s1 d in
  let steps := AgriFrontend.reasoningSteps in
  JSArray.get (steps s1) (Z.to_nat i) = Some entry
  /\ (forall j, j <> Z.to_nat i ->
                JSArray.get (steps s1) j = JSArray.get (steps s) j)
  /\ JSArray.length (steps s1)
     = Nat.max (JSArray.length (steps s)) (S (Z.to_nat i))
  /\ s1 = AgriFrontend.set_reasoningSteps (steps s1) s
  /\ s2 = AgriFrontend.set_reasoningSteps (JSArray.spread (steps s1)) s1
  /\ (forall j, JSArray.get (steps s2) j = JSArray.get (steps s1) j)
  /\ JSArray.length (steps s2) = JSArray.length (steps s1)
  /\ (dense (steps s1) -> s2 = s1)
  /\ ((Z.to_nat i <= JSArray.length (steps s))%nat -> dense (steps s1)).
Proof.
  intros Hty Hst Hne Hidx Hi entry s1 s2 steps.
  assert (Htruthy : JS.truthy_str (AgriFrontend.StreamingMessage.step d) = true).
  { rewrite Hst. now apply truthy_str_intro. }
  assert (E1 : s1 = AgriFrontend.set_reasoningSteps
                      (JSArray.mk
                         (JSArray.write
                            (List.map JSArray.fill (JSArray.elems (steps s)))
                            (Z.to_nat i) entry) ∅) s).
  { subst s1 entry steps. rewrite <- Hst.
    now apply agri_reasoning_step_fold. }
  assert (E2 : s2 = AgriFrontend.set_reasoningSteps
                      (JSArray.mk
                         (JSArray.write
                            (List.map JSArray.fill (JSArray.elems (steps s1)))
                            (Z.to_nat i) entry) ∅) s1).
  { subst s2 entry steps. rewrite <- Hst.
    now apply agri_reasoning_step_fold. }
  assert (R1 : steps s1
               = JSArray.mk
                   (JSArray.write
                      (List.map JSArray.fill (JSArray.elems (steps s)))
                      (Z.to_nat i) entry) ∅).
  { rewrite E1. reflexivity. }
  assert (S2 : s2 = AgriFrontend.set_reasoningSteps (JSArray.spread (steps s1)) s1).
  { rewrite E2. f_equal. unfold JSArray.spread. f_equal.
    apply write_same. rewrite lookup_map_fill, R1. simpl.
    now rewrite lookup_write_eq. }
  split; [|split; [|split; [|split; [|split; [|split; [|split; [|split]]]]]]].
  - rewrite R1. unfold JSArray.get. simpl. now rewrite lookup_write_eq.
  - intros j Hj. rewrite R1. rewrite <- (get_spread (steps s) j).
    unfold JSArray.get, JSArray.spread. simpl.
    destruct (lookup_write_ne
                (List.map JSArray.fill (JSArray.elems (steps s)))
                (Z.to_nat i) j entry Hj) as [->|[-> ->]]; reflexivity.
  - rewrite R1. unfold JSArray.length. simpl.
    now rewrite length_write, length_map.
  - rewrite E1 at 1. rewrite R1. reflexivity.
  - exact S2.
  - intros j. rewrite S2. simpl. apply get_spread.
  - rewrite S2. unfold JSArray.length, JSArray.spread. simpl. apply length_map.
  - intros Hdense. rewrite S2. unfold JSArray.spread.
    rewrite (map_fill_no_hole _ Hdense).
    rewrite E1 at 2 3. rewrite R1. reflexivity.
  - intros Hlen. rewrite R1. unfold dense. simpl.
    apply no_hole_write; [|apply no_hole_map_fill].
    rewrite length_map. exact Hlen.
Qed.

Lemma reasoning_step_upserts_example :
  let s1 :=
    AgriFrontend.fold 1 AgriFrontend.resetState (agri_step "Compare varieties" 2) in
  JSArray.get (AgriFrontend.reasoningSteps s1) 2
  = Some (ReasoningStep.mk (Some "Compare varieties") (Some 2) (Some false))
  /\ JSArray.length (AgriFrontend.reasoningSteps s1) = 3%nat.
Proof.
  pose proof (reasoning_step_upserts 1 AgriFrontend.resetState
                (agri_step "Compare varieties" 2) "Compare varieties" 2
                eq_refl eq_refl ltac:(discriminate) eq_refl eq_refl) as H.
  cbv zeta in H. destruct H as (H1 & _ & H3 & _).
  split; [exact H1|exact H3].
Defined.

(** Index 2 arriving before indices 0 and 1: position 2 keeps its text. *)
Lemma reasoning_steps_out_of_order :
  let s :=
    fold_left AgriFrontend.onmessage
      [agri_message 1 (agri_step "Compare varieties" 2);
       agri_message 2 (agri_step "Read the question" 0);
       agri_message 3 (agri_step "Check the season" 1)]
      AgriFrontend.resetState in
  JSArray.elems (AgriFrontend.reasoningSteps s)
  = [JSArray.Elem (ReasoningStep.mk (Some "Read the question") (Some 0) (Some false));
     JSArray.Elem (ReasoningStep.mk (Some "Check the season") (Some 1) (Some false));
     JSArray.Elem (ReasoningStep.mk (Some "Compare varieties") (Some 2) (Some false))].
Proof. reflexivity. Qed.

(** C6 (as stated) fails in two places.  An event whose step text is the
    empty string is not stored at all, since [data.step] is falsy.  And a
    second fold of an event whose index lies past the end of the array does
    not give back the state of the first: the first leaves holes below the
    index, the second turns them into [undefined] elements. *)
Lemma reasoning_step_not_always_idempotent :
  (AgriFrontend.fold 1 AgriFrontend.resetState (agri_step "" 0)
   = AgriFrontend.resetState
   /\ JSArray.get
        (AgriFrontend.reasoningSteps
           (AgriFrontend.fold 1 AgriFrontend.resetState (agri_step "" 0))) 0
      = None)
  /\
  (let d := agri_step "Compare varieties" 2 in
   let entry := ReasoningStep.mk (Some "Compare varieties") (Some 2) (Some false) in
   let s1 := AgriFrontend.fold 1 AgriFrontend.resetState d in
   let s2 := AgriFrontend.fold 1 s1 d in
   JSArray.elems (AgriFrontend.reasoningSteps s1)
   = [JSArray.Hole; JSArray.Hole; JSArray.Elem entry]
   /\ JSArray.elems (AgriFrontend.reasoningSteps s2)
      = [JSArray.Undefined; JSArray.Undefined; JSArray.Elem entry]
   /\ s2 <> s1).
Proof.
  split; [split; reflexivity|].
  cbv zeta. split; [reflexivity|]. split; [reflexivity|].
  intros H.
  apply (f_equal (fun s => JSArray.elems (AgriFrontend.reasoningSteps s))) in H.
  vm_compute in H. discriminate H.
Qed.

(** The difference shows at completion: [map] skips the holes and turns
    the [undefined] elements into objects. *)
Lemma holes_and_undefined_complete_differently :
  let d := agri_step "Compare varieties" 2 in
  let s1 := AgriFrontend.fold 1 AgriFrontend.resetState d in
  let s2 := AgriFrontend.fold 1 s1 d in
  List.length
    (JSArray.present
       (AgriFrontend.reasoningSteps (AgriFrontend.fold 2 s1 (agri_event "completion"))))
  = 1%nat
  /\ List.length
       (JSArray.present
          (AgriFrontend.reasoningSteps
             (AgriFrontend.fold 2 s2 (agri_event "completion"))))
     = 3%nat.
Proof. split; reflexivity. Qed.

(** ** C8: the word-by-word replay *)

Lemma append_nil_l (b : string) : "" +:+ b = b.
Proof. reflexivity. Qed.

Lemma append_cons (c : ascii) (a b : string) :
  String c a +:+ b = String c (a +:+ b).
Proof. reflexivity. Qed.

Lemma append_assoc (a b c : string) : (a +:+ b) +:+ c = a +:+ (b +:+ c).
Proof.
  induction a as [|x a IH]; [reflexivity|].
  now rewrite !append_cons, IH.
Qed.

Lemma append_empty_r (a : string) : a +:+ "" = a.
Proof.
  induction a as [|x a IH]; [reflexivity|].
  now rewrite append_cons, IH.
Qed.

Lemma split_space_not_nil (t : string) : Fallback.split_space t <> [].
Proof.
  destruct t as [|c t]; simpl; [discriminate|].
  destruct (Ascii.eqb c " "); [discriminate|].
  destruct (Fallback.split_space t); discriminate.
Qed.

(** Splitting on single spaces and putting the spaces back is the
    identity. *)
Lemma split_space_glue (t : string) :
  forall w ws, Fallback.split_space t = w :: ws -> w +:+ glue ws = t.
Proof.
  induction t as [|c t IH]; simpl; intros w ws Hsplit.
  - injection Hsplit as <- <-. reflexivity.
  - destruct (Ascii.eqb_spec c " ") as [->|Hc].
    + injection Hsplit as <- <-.
      destruct (Fallback.split_space t) as [|w' ws'] eqn:Ht.
      * now destruct (split_space_not_nil t).
      * simpl. rewrite append_nil_l, append_cons, append_nil_l.
        f_equal. now apply IH.
    + destruct (Fallback.split_space t) as [|w' ws'] eqn:Ht.
      * now destruct (split_space_not_nil t).
      * injection Hsplit as <- <-. rewrite append_cons.
        f_equal. now apply IH.
Qed.

Lemma replay_cons_snd n i cur w ws :
  snd (Fallback.replay n i cur (w :: ws))
  = snd (Fallback.replay n (S i)
           (cur +:+ (if (0 <? i)%nat then " " else "") +:+ w) ws).
Proof. simpl. now destruct (Fallback.replay _ _ _ ws). Qed.

Lemma replay_cons_fst n i cur w ws :
  fst (Fallback.replay n i cur (w :: ws))
  = Fallback.show (cur +:+ (if (0 <? i)%nat then " " else "") +:+ w)
                  (Fallback.replay_progress i n)
    :: fst (Fallback.replay n (S i)
              (cur +:+ (if (0 <? i)%nat then " " else "") +:+ w) ws).
Proof. simpl. now destruct (Fallback.replay _ _ _ ws). Qed.

(** After the first iteration the loop appends [glue] of what is left. *)
Lemma replay_text_from (n : nat) (ws : list string) :
  forall i cur, (0 < i)%nat ->
  snd (Fallback.replay n i cur ws) = cur +:+ glue ws.
Proof.
  induction ws as [|w ws IH]; intros i cur Hi.
  - simpl. now rewrite append_empty_r.
  - rewrite replay_cons_snd. destruct (Nat.ltb_spec 0 i); [|lia].
    rewrite IH by lia. simpl. now rewrite !append_assoc.
Qed.

Lemma replay_text (t : string) :
  let words := Fallback.split_space t in
  snd (Fallback.replay (List.length words) 0 "" words) = t.
Proof.
  cbv zeta. destruct (Fallback.split_space t) as [|w ws] eqn:Ht.
  - now destruct (split_space_not_nil t).
  - rewrite replay_cons_snd.
    replace (if (0 <? 0)%nat then " " else "") with "" by reflexivity.
    rewrite !append_nil_l.
    rewrite replay_text_from by lia. now apply split_space_glue.
Qed.

(** The updates of the loop leave the text at the loop's last
    [currentText] and touch nothing but the text and the progress. *)
Lemma replay_updates (n : nat) (ws : list string) :
  forall i cur s, ws <> [] ->
  let s' := Fallback.apply_updates (fst (Fallback.replay n i cur ws)) s in
  Fallback.streamingText s' = snd (Fallback.replay n i cur ws)
  /\ Fallback.isStreaming s' = Fallback.isStreaming s
  /\ Fallback.error s' = Fallback.error s.
Proof.
  induction ws as [|w ws IH]; intros i cur s Hne; [contradiction|].
  cbv zeta. rewrite replay_cons_fst, replay_cons_snd.
  set (cur' := cur +:+ (if (0 <? i)%nat then " " else "") +:+ w).
  unfold Fallback.apply_updates. simpl fold_left.
  destruct ws as [|w' ws'].
  - simpl. auto.
  - destruct (IH (S i) cur' (Fallback.show cur' (Fallback.replay_progress i n) s)
                ltac:(discriminate)) as (H1 & H2 & H3).
    unfold Fallback.apply_updates in H1, H2, H3.
    rewrite H1, H2, H3. simpl. auto.
Qed.

Lemma apply_updates_app (a b : list Fallback.Update) (s : Fallback.StreamingState) :
  Fallback.apply_updates (a ++ b) s
  = Fallback.apply_updates b (Fallback.apply_updates a s).
Proof. unfold Fallback.apply_updates. apply fold_left_app. Qed.

Lemma find_assistant_length msgs ai :
  Fallback.find_assistant msgs = Some ai -> (0 <? List.length msgs)%nat = true.
Proof. destruct msgs; [discriminate|reflexivity]. Qed.

(** C8. In the request/response hook, when the token is present and the
    request returns a list with an assistant message of content [t], the
    replay loop over [t.split(' ')] rebuilds exactly [t]: after the loop's
    updates [streamingText] is [t] with the stream still marked live; the
    next update sets [progress] to 100, and the last one sets
    [isStreaming] to false, leaving the text [t] and no error. *)
Theorem fallback_replay_round_trip token msgs ai s0 :
  JS.truthy_str token = true ->
  Fallback.find_assistant msgs = Some ai ->
  let t := Fallback.ChatMessage.content ai in
  let words := Fallback.split_space t in
  exists shown,
    Fallback.startStreaming token (Fallback.Resolves msgs)
    = shown ++ [Fallback.completed ai; Fallback.finished]
    /\ snd (Fallback.replay (List.length words) 0 "" words) = t
    /\ let s1 := Fallback.apply_updates shown s0 in
       let s2 := Fallback.completed ai s1 in
       let s3 := Fallback.finished s2 in
       (Fallback.streamingText s1 = t /\ Fallback.isStreaming s1 = true)
       /\ (Fallback.progress s2 = 100%Q /\ Fallback.streamingText s2 = t
           /\ Fallback.isStreaming s2 = true)
       /\ (Fallback.isStreaming s3 = false /\ Fallback.progress s3 = 100%Q
           /\ Fallback.streamingText s3 = t /\ Fallback.error s3 = None)
       /\ Fallback.apply_updates
            (Fallback.startStreaming token (Fallback.Resolves msgs)) s0
          = s3.
Proof.
  intros Htoken Hfind t words.
  set (R := fst (Fallback.replay (List.length words) 0 "" words)).
  exists ([ (fun _ => Fallback.resetState);
            Fallback.tick 15%Q "Connecting to agricultural AI...";
            Fallback.tick 30%Q "Analyzing your query...";
            Fallback.tick 45%Q "Searching knowledge base...";
            Fallback.tick 60%Q "Generating response...";
            Fallback.delivering ] ++ R).
  assert (Hshape :
    Fallback.startStreaming token (Fallback.Resolves msgs)
    = ([ (fun _ => Fallback.resetState);
         Fallback.tick 15%Q "Connecting to agricultural AI...";
         Fallback.tick 30%Q "Analyzing your query...";
         Fallback.tick 45%Q "Searching knowledge base...";
         Fallback.tick 60%Q "Generating response...";
         Fallback.delivering ] ++ R)
      ++ [Fallback.completed ai; Fallback.finished]).
  { unfold Fallback.startStreaming.
    rewrite Htoken, (find_assistant_length _ _ Hfind), Hfind. reflexivity. }
  split; [exact Hshape|].
  split; [apply replay_text|].
  destruct (replay_updates (List.length words) words 0 ""
              (Fallback.delivering
                 (Fallback.tick 60%Q "Generating response..."
                    (Fallback.tick 45%Q "Searching knowledge base..."
                       (Fallback.tick 30%Q "Analyzing your query..."
                          (Fallback.tick 15%Q "Connecting to agricultural AI..."
                             Fallback.resetState)))))
              (split_space_not_nil t)) as (Htext & Hlive & Herr).
  fold R in Htext, Hlive, Herr.
  rewrite (replay_text t : snd (Fallback.replay (List.length words) 0 "" words) = t)
    in Htext.
  simpl in Hlive, Herr.
  assert (Hs1 :
    Fallback.apply_updates
      ([ (fun _ => Fallback.resetState);
         Fallback.tick 15%Q "Connecting to agricultural AI...";
         Fallback.tick 30%Q "Analyzing your query...";
         Fallback.tick 45%Q "Searching knowledge base...";
         Fallback.tick 60%Q "Generating response...";
         Fallback.delivering ] ++ R) s0
    = Fallback.apply_updates R
        (Fallback.delivering
           (Fallback.tick 60%Q "Generating response..."
              (Fallback.tick 45%Q "Searching knowledge base..."
                 (Fallback.tick 30%Q "Analyzing your query..."
                    (Fallback.tick 15%Q "Connecting to agricultural AI..."
                       Fallback.resetState)))))).
  { reflexivity. }
  cbv zeta. rewrite Hshape.
  rewrite (apply_updates_app (_ ++ R) [Fallback.completed ai; Fallback.finished]).
  rewrite Hs1.
  set (s1 := Fallback.apply_updates R _) in *.
  split; [split; [exact Htext|exact Hlive]|].
  split; [split; [reflexivity|split; [exact Htext|exact Hlive]]|].
  split; [|reflexivity].
  split; [reflexivity|]. split; [reflexivity|].
  split; [exact Htext|exact Herr].
Qed.

Lemma fallback_replay_plant_rice_now :
  let final :=
    Fallback.apply_updates
      (Fallback.startStreaming (Some "token")
         (Fallback.Resolves (sample_reply "When do I plant?" "Plant rice now")))
      Fallback.initialState in
  Fallback.streamingText final = "Plant rice now"
  /\ Fallback.progress final = 100%Q
  /\ Fallback.isStreaming final = false.
Proof.
  destruct (fallback_replay_round_trip (Some "token")
              (sample_reply "When do I plant?" "Plant rice now")
              (Fallback.ChatMessage.mk "m2" "s1" "assistant" "Plant rice now"
                                       "2025-06-01T10:00:04Z" None None)
              Fallback.initialState eq_refl eq_refl)
    as (shown & _ & _ & H).
  cbv zeta in H. destruct H as (_ & _ & (H1 & H2 & H3 & _) & H4).
  cbv zeta. rewrite H4. split; [exact H3|]. split; [exact H2|exact H1].
Defined.

(** The pieces of a text with a doubled space, and the texts the loop
    shows for it. *)
Lemma replay_keeps_doubled_spaces :
  Fallback.split_space "Sow  now" = ["Sow"; ""; "now"]
  /\ List.map (fun u => Fallback.streamingText (u Fallback.initialState))
       (fst (Fallback.replay 3 0 "" (Fallback.split_space "Sow  now")))
     = ["Sow"; "Sow "; "Sow  now"].
Proof. split; reflexivity. Qed.

(** ** C9: rolling back the optimistic user message *)

Lemma rollback_app t (l1 l2 : list ChatInterface.Message.t) :
  ChatInterface.rollback t (l1 ++ l2)
  = ChatInterface.rollback t l1 ++ ChatInterface.rollback t l2.
Proof. unfold ChatInterface.rollback. apply List.filter_app. Qed.

(** What the [catch] block shows once the request of a sent message is
    rejected: the filtered list, with the user message just added kept or
    dropped by its age alone, then the error bubble. *)
Lemma sendMessage_rejected r st e :
  ChatInterface.is_blank (ChatInterface.currentMessage st) = false ->
  ChatInterface.isThinking st = false ->
  ChatInterface.isAuthenticated st = true ->
  JS.truthy_str (ChatInterface.sessionId st) = true ->
  ChatInterface.reply r = Fallback.Rejects e ->
  let userMessage :=
    ChatInterface.Message.mk (ChatInterface.now_id (ChatInterface.t_sent r))
      ChatInterface.user (ChatInterface.currentMessage st)
      (Some (ChatInterface.t_sent r)) in
  let errorMessage :=
    ChatInterface.Message.mk (ChatInterface.now_id (ChatInterface.t_done r))
      ChatInterface.assistant (ChatInterface.error_text e)
      (Some (ChatInterface.t_done r)) in
  ChatInterface.messages (ChatInterface.sendMessage r st)
  = ChatInterface.rollback (ChatInterface.t_done r) (ChatInterface.messages st)
    ++ (if Z.abs (ChatInterface.t_sent r - ChatInterface.t_done r) <? 1000
        then [] else [userMessage])
    ++ [errorMessage].
Proof.
  intros Hblank Hthink Hauth Hsess Hreply. cbv zeta.
  unfold ChatInterface.sendMessage.
  rewrite Hblank, Hthink, Hauth, Hsess, Hreply. simpl.
  rewrite rollback_app, <- app_assoc. f_equal. f_equal.
  unfold ChatInterface.rollback. simpl.
  now destruct (Z.abs (ChatInterface.t_sent r - ChatInterface.t_done r) <? 1000).
Qed.

(** A rejection that arrives a second or more after the message was sent
    leaves the user message on screen. *)
Lemma late_rejection_keeps_user_message r st e :
  ChatInterface.is_blank (ChatInterface.currentMessage st) = false ->
  ChatInterface.isThinking st = false ->
  ChatInterface.isAuthenticated st = true ->
  JS.truthy_str (ChatInterface.sessionId st) = true ->
  ChatInterface.reply r = Fallback.Rejects e ->
  ChatInterface.t_sent r + 1000 <= ChatInterface.t_done r ->
  In (ChatInterface.Message.mk (ChatInterface.now_id (ChatInterface.t_sent r))
        ChatInterface.user (ChatInterface.currentMessage st)
        (Some (ChatInterface.t_sent r)))
     (ChatInterface.messages (ChatInterface.sendMessage r st)).
Proof.
  intros Hblank Hthink Hauth Hsess Hreply Hlate.
  rewrite (sendMessage_rejected r st e) by assumption.
  destruct (Z.ltb_spec (Z.abs (ChatInterface.t_sent r - ChatInterface.t_done r)) 1000);
    [lia|].
  apply in_or_app. right. simpl. auto.
Qed.

(** A rejection within a second removes it, and with it every earlier user
    message stamped within a second of the failure; assistant messages and
    older user messages stay. *)
Lemma quick_rejection_removes_user_message r st e :
  ChatInterface.is_blank (ChatInterface.currentMessage st) = false ->
  ChatInterface.isThinking st = false ->
  ChatInterface.isAuthenticated st = true ->
  JS.truthy_str (ChatInterface.sessionId st) = true ->
  ChatInterface.reply r = Fallback.Rejects e ->
  Z.abs (ChatInterface.t_sent r - ChatInterface.t_done r) < 1000 ->
  ChatInterface.messages (ChatInterface.sendMessage r st)
  = ChatInterface.rollback (ChatInterface.t_done r) (ChatInterface.messages st)
    ++ [ChatInterface.Message.mk (ChatInterface.now_id (ChatInterface.t_done r))
          ChatInterface.assistant (ChatInterface.error_text e)
          (Some (ChatInterface.t_done r))].
Proof.
  intros Hblank Hthink Hauth Hsess Hreply Hquick.
  rewrite (sendMessage_rejected r st e) by assumption.
  destruct (Z.ltb_spec (Z.abs (ChatInterface.t_sent r - ChatInterface.t_done r)) 1000);
    [reflexivity|lia].
Qed.

(** C9. The rollback is missed when the failure is slow: the request for
    "When do I sow rice?" is rejected 2.5 seconds after the message was
    shown, and the message is still in the list, followed by the error
    bubble. *)
Theorem slow_failure_leaves_user_message :
  ChatInterface.messages
    (ChatInterface.sendMessage
       (failing_run (Fallback.ErrorObject "Internal Server Error") 2500)
       (chat_ready [] "When do I sow rice?"))
  = [ ChatInterface.Message.mk "10000" ChatInterface.user "When do I sow rice?"
                               (Some 10000);
      ChatInterface.Message.mk "12500" ChatInterface.assistant
                               "**Error**: Internal Server Error" (Some 12500) ].
Proof. vm_compute. reflexivity. Qed.

(** The same request rejected after 40 milliseconds: the message is gone. *)
Lemma quick_failure_removes_user_message :
  ChatInterface.messages
    (ChatInterface.sendMessage
       (failing_run (Fallback.ErrorObject "Failed to fetch") 40)
       (chat_ready [] "When do I sow rice?"))
  = [ ChatInterface.Message.mk "10040" ChatInterface.assistant
                               "**Error**: Failed to fetch" (Some 10040) ].
Proof. vm_compute. reflexivity. Qed.

(** A user message of an earlier turn, stamped half a second before the
    failure, is removed along with the new one. *)
Lemma quick_failure_removes_recent_neighbour :
  ChatInterface.messages
    (ChatInterface.sendMessage
       (failing_run (Fallback.ErrorObject "Failed to fetch") 40)
       (chat_ready
          [ ChatInterface.Message.mk "m7" ChatInterface.user "Is it too late for wheat?"
                                     (Some 9600);
            ChatInterface.Message.mk "m8" ChatInterface.assistant "Not yet."
                                     (Some 9700) ]
          "When do I sow rice?"))
  = [ ChatInterface.Message.mk "m8" ChatInterface.assistant "Not yet." (Some 9700);
      ChatInterface.Message.mk "10040" ChatInterface.assistant
                               "**Error**: Failed to fetch" (Some 10040) ].
Proof. vm_compute. reflexivity. Qed.

(** Stopping a live stream that has shown "Sow rice": the text stays, the
    [EventSource] is closed. *)
Lemma stopStreaming_keeps_partial_answer_example :
  let h :=
    AgriFrontend.message_from 0 (agri_message 1 (agri_chunk "Sow rice"))
      (AgriFrontend.startStreaming true AgriFrontend.initialHook) in
  let h' := AgriFrontend.stopStreaming h in
  AgriFrontend.isStreaming (AgriFrontend.streamingState h) = true
  /\ AgriFrontend.isStreaming (AgriFrontend.streamingState h') = false
  /\ AgriFrontend.streamingText (AgriFrontend.streamingState h') = "Sow rice"
  /\ AgriFrontend.eventSources h' !! 0%nat = Some Closed
  /\ AgriFrontend.stopStreaming h' = h'.
Proof.
  pose proof (stopStreaming_keeps_partial_answer
                (AgriFrontend.message_from 0 (agri_message 1 (agri_chunk "Sow rice"))
                   (AgriFrontend.startStreaming true AgriFrontend.initialHook)))
    as H.
  cbv zeta in H. destruct H as (H1 & _ & H3 & (_ & _ & _ & H4 & _) & _).
  cbv zeta. split; [reflexivity|]. split; [exact H1|].
  split; [rewrite H4; reflexivity|].
  split; [apply H3; reflexivity|].
  vm_compute. reflexivity.
Defined.

(** * Further properties of the hooks *)

(** ** What the fold keeps *)

Lemma agri_case_response_start (ty : string) :
  AgriFrontend.case_of ty = AgriFrontend.response_start -> ty = "response_start".
Proof.
  unfold AgriFrontend.case_of.
  repeat match goal with
         | |- context [String.eqb ty ?lit] =>
             destruct (String.eqb_spec ty lit) as [->|_]
         end; intros H; try discriminate H; reflexivity.
Qed.

Lemma agri_case_response_chunk (ty : string) :
  AgriFrontend.case_of ty = AgriFrontend.response_chunk -> ty = "response_chunk".
Proof.
  unfold AgriFrontend.case_of.
  repeat match goal with
         | |- context [String.eqb ty ?lit] =>
             destruct (String.eqb_spec ty lit) as [->|_]
         end; intros H; try discriminate H; reflexivity.
Qed.

Lemma frontend_case_response_start (ty : string) :
  Frontend.case_of ty = Frontend.response_start -> ty = "response_start".
Proof.
  unfold Frontend.case_of.
  repeat match goal with
         | |- context [String.eqb ty ?lit] =>
             destruct (String.eqb_spec ty lit) as [->|_]
         end; intros H; try discriminate H; reflexivity.
Qed.

Lemma frontend_case_response_chunk (ty : string) :
  Frontend.case_of ty = Frontend.response_chunk -> ty = "response_chunk".
Proof.
  unfold Frontend.case_of.
  repeat match goal with
         | |- context [String.eqb ty ?lit] =>
             destruct (String.eqb_spec ty lit) as [->|_]
         end; intros H; try discriminate H; reflexivity.
Qed.

(** Case analysis on the conditionals left in a goal about a fold. *)
Ltac split_conditionals :=
  repeat match goal with
         | |- context [match ?x with _ => _ end] => destruct x; simpl
         end.

(** X1. Only [response_start] and [response_chunk] events touch the
    text: every other event, [completion] and [error] included, leaves
    [streamingText] as it was, in both hooks. *)
Theorem text_survives_other_events :
  (forall now prev data,
      AgriFrontend.StreamingMessage.type data <> "response_start" ->
      AgriFrontend.StreamingMessage.type data <> "response_chunk" ->
      AgriFrontend.streamingText (AgriFrontend.fold now prev data)
      = AgriFrontend.streamingText prev)
  /\
  (forall now prev data,
      Frontend.StreamingMessage.type data <> "response_start" ->
      Frontend.StreamingMessage.type data <> "response_chunk" ->
      Frontend.streamingText (Frontend.fold now prev data)
      = Frontend.streamingText prev).
Proof.
  split; intros now prev data Hstart Hchunk.
  - unfold AgriFrontend.fold.
    destruct (AgriFrontend.case_of _) eqn:Hc; simpl; try reflexivity;
      try (split_conditionals; reflexivity).
    + now apply agri_case_response_start in Hc.
    + now apply agri_case_response_chunk in Hc.
  - unfold Frontend.fold.
    destruct (Frontend.case_of _) eqn:Hc; simpl; try reflexivity;
      try (split_conditionals; reflexivity).
    + now apply frontend_case_response_start in Hc.
    + now apply frontend_case_response_chunk in Hc.
Qed.

Lemma text_survives_other_events_example :
  AgriFrontend.streamingText
    (AgriFrontend.fold 2
       (AgriFrontend.fold 1 AgriFrontend.resetState (agri_chunk "Sow rice"))
       (agri_event "error"))
  = "Sow rice".
Proof.
  rewrite (proj1 text_survives_other_events 2
             (AgriFrontend.fold 1 AgriFrontend.resetState (agri_chunk "Sow rice"))
             (agri_event "error") ltac:(discriminate) ltac:(discriminate)).
  reflexivity.
Defined.

(** One fold adds at most one search query, at the end. *)
Lemma agri_fold_queries now s d :
  exists added,
    AgriFrontend.webSearchQueries (AgriFrontend.fold now s d)
    = AgriFrontend.webSearchQueries s ++ added
    /\ Forall (fun q => WebSearchQuery.query q <> "") added.
Proof.
  unfold AgriFrontend.fold.
  destruct (AgriFrontend.case_of _); simpl;
    try (exists []; rewrite app_nil_r; split; [reflexivity|constructor]).
  - destruct (AgriFrontend.StreamingMessage.index d);
      [destruct (JS.truthy_str (AgriFrontend.StreamingMessage.step d))|];
      exists []; rewrite app_nil_r; (split; [reflexivity|constructor]).
  - destruct (AgriFrontend.StreamingMessage.query d) as [q|];
      [|exists []; rewrite app_nil_r; split; [reflexivity|constructor]].
    destruct (String.eqb_spec q "") as [->|Hq]; simpl.
    + exists []. rewrite app_nil_r. split; [reflexivity|constructor].
    + exists [WebSearchQuery.mk q now None]. split; [reflexivity|].
      constructor; [exact Hq|constructor].
Qed.

Lemma frontend_fold_queries now s d :
  exists added,
    Frontend.webSearchQueries (Frontend.fold now s d)
    = Frontend.webSearchQueries s ++ added
    /\ Forall (fun q => WebSearchQuery.query q <> "") added.
Proof.
  unfold Frontend.fold.
  destruct (Frontend.case_of _); simpl;
    try (exists []; rewrite app_nil_r; split; [reflexivity|constructor]).
  - destruct (Frontend.StreamingMessage.index d);
      [destruct (JS.truthy_str (Frontend.StreamingMessage.step d))|];
      exists []; rewrite app_nil_r; (split; [reflexivity|constructor]).
  - destruct (Frontend.StreamingMessage.step d) as [st|];
      [destruct (Frontend.StreamingMessage.status d) as [ss|];
       [destruct (negb (String.eqb st "") && negb (String.eqb ss ""))|]|];
      exists []; rewrite app_nil_r; (split; [reflexivity|constructor]).
  - destruct (Frontend.StreamingMessage.query d) as [q|];
      [|exists []; rewrite app_nil_r; split; [reflexivity|constructor]].
    destruct (String.eqb_spec q "") as [->|Hq]; simpl.
    + exists []. rewrite app_nil_r. split; [reflexivity|constructor].
    + exists [WebSearchQuery.mk q now None]. split; [reflexivity|].
      constructor; [exact Hq|constructor].
Qed.

(** X2. [webSearchQueries] is append-only: whatever events [onmessage]
    handles, the queries recorded before are still there, first and in
    order, and every query added since is non-empty; in both hooks. *)
Theorem search_queries_are_append_only :
  (forall evs s,
      exists added,
        AgriFrontend.webSearchQueries (fold_left AgriFrontend.onmessage evs s)
        = AgriFrontend.webSearchQueries s ++ added
        /\ Forall (fun q => WebSearchQuery.query q <> "") added)
  /\
  (forall evs s,
      exists added,
        Frontend.webSearchQueries (fold_left Frontend.onmessage evs s)
        = Frontend.webSearchQueries s ++ added
        /\ Forall (fun q => WebSearchQuery.query q <> "") added).
Proof.
  split.
  - induction evs as [|ev evs IH]; intros s; simpl.
    + exists []. rewrite app_nil_r. split; [reflexivity|constructor].
    + destruct (IH (AgriFrontend.onmessage s ev)) as (more & Hmore & Hok).
      assert (Hstep : exists added,
                 AgriFrontend.webSearchQueries (AgriFrontend.onmessage s ev)
                 = AgriFrontend.webSearchQueries s ++ added
                 /\ Forall (fun q => WebSearchQuery.query q <> "") added).
      { unfold AgriFrontend.onmessage. destruct (AgriFrontend.data ev).
        - apply agri_fold_queries.
        - exists []. rewrite app_nil_r. split; [reflexivity|constructor]. }
      destruct Hstep as (one & Hone & Hone_ok).
      exists (one ++ more). rewrite Hmore, Hone, app_assoc.
      split; [reflexivity|]. apply Forall_app. auto.
  - induction evs as [|ev evs IH]; intros s; simpl.
    + exists []. rewrite app_nil_r. split; [reflexivity|constructor].
    + destruct (IH (Frontend.onmessage s ev)) as (more & Hmore & Hok).
      assert (Hstep : exists added,
                 Frontend.webSearchQueries (Frontend.onmessage s ev)
                 = Frontend.webSearchQueries s ++ added
                 /\ Forall (fun q => WebSearchQuery.query q <> "") added).
      { unfold Frontend.onmessage. destruct (Frontend.data ev).
        - apply frontend_fold_queries.
        - exists []. rewrite app_nil_r. split; [reflexivity|constructor]. }
      destruct Hstep as (one & Hone & Hone_ok).
      exists (one ++ more). rewrite Hmore, Hone, app_assoc.
      split; [reflexivity|]. apply Forall_app. auto.
Qed.

Lemma length_set_spread (a : JSArray.t ReasoningStep.t) (k : Z) (x : ReasoningStep.t) :
  (JSArray.length a <= JSArray.length (JSArray.set (JSArray.spread a) k x))%nat.
Proof.
  unfold JSArray.set, JSArray.spread, JSArray.length. simpl.
  destruct (JSArray.is_index k); simpl.
  - rewrite length_write, length_map. lia.
  - rewrite length_map. lia.
Qed.

Lemma length_map_complete (a : JSArray.t ReasoningStep.t) :
  JSArray.length (JSArray.map ReasoningStep.complete a) = JSArray.length a.
Proof. unfold JSArray.length, JSArray.map. simpl. apply length_map. Qed.

Lemma agri_fold_steps_length now s d :
  (JSArray.length (AgriFrontend.reasoningSteps s)
   <= JSArray.length (AgriFrontend.reasoningSteps (AgriFrontend.fold now s d)))%nat.
Proof.
  unfold AgriFrontend.fold.
  destruct (AgriFrontend.case_of _); simpl; try lia.
  - destruct (AgriFrontend.StreamingMessage.index d); [|lia].
    destruct (JS.truthy_str _); simpl; [apply length_set_spread|lia].
  - destruct (AgriFrontend.StreamingMessage.query d) as [q|]; [|lia].
    destruct (negb _); simpl; lia.
  - rewrite length_map_complete. lia.
Qed.

Lemma frontend_fold_steps_length now s d :
  (JSArray.length (Frontend.reasoningSteps s)
   <= JSArray.length (Frontend.reasoningSteps (Frontend.fold now s d)))%nat.
Proof.
  unfold Frontend.fold.
  destruct (Frontend.case_of _); simpl; try lia.
  - destruct (Frontend.StreamingMessage.index d); [|lia].
    destruct (JS.truthy_str _); simpl; [apply length_set_spread|lia].
  - destruct (Frontend.StreamingMessage.step d) as [st|]; [|lia].
    destruct (Frontend.StreamingMessage.status d) as [ss|]; [|lia].
    destruct (_ && _); simpl; lia.
  - destruct (Frontend.StreamingMessage.query d) as [q|]; [|lia].
    destruct (negb _); simpl; lia.
  - rewrite length_map_complete. lia.
Qed.

(** X3. The list of reasoning steps never gets shorter: over any sequence
    of events handled by [onmessage] its length can only grow, in both
    hooks. *)
Theorem reasoning_steps_never_shrink :
  (forall evs s,
      (JSArray.length (AgriFrontend.reasoningSteps s)
       <= JSArray.length
            (AgriFrontend.reasoningSteps (fold_left AgriFrontend.onmessage evs s)))%nat)
  /\
  (forall evs s,
      (JSArray.length (Frontend.reasoningSteps s)
       <= JSArray.length
            (Frontend.reasoningSteps (fold_left Frontend.onmessage evs s)))%nat).
Proof.
  split.
  - induction evs as [|ev evs IH]; intros s; simpl; [lia|].
    etransitivity; [|apply IH].
    unfold AgriFrontend.onmessage. destruct (AgriFrontend.data ev); [|lia].
    apply agri_fold_steps_length.
  - induction evs as [|ev evs IH]; intros s; simpl; [lia|].
    etransitivity; [|apply IH].
    unfold Frontend.onmessage. destruct (Frontend.data ev); [|simpl; lia].
    apply frontend_fold_steps_length.
Qed.

(** Completing the steps twice is completing them once. *)
Lemma map_complete_twice (a : JSArray.t ReasoningStep.t) :
  JSArray.map ReasoningStep.complete (JSArray.map ReasoningStep.complete a)
  = JSArray.map ReasoningStep.complete a.
Proof.
  unfold JSArray.map. simpl. f_equal. rewrite List.map_map.
  apply List.map_ext. intros [| |o]; reflexivity.
Qed.

Lemma num_or_twice (x : option Q) (d : Q) :
  JS.num_or x (JS.num_or x d) = JS.num_or x d.
Proof.
  destruct x as [q|]; simpl; [|reflexivity].
  destruct (Qeq_bool q 0); reflexivity.
Qed.

(** X4. A [completion] event delivered twice changes nothing the second
    time: folding it again returns the state of the first fold, in both
    hooks. *)
Theorem duplicate_completion_is_harmless :
  (forall now now' prev data,
      AgriFrontend.StreamingMessage.type data = "completion" ->
      AgriFrontend.fold now' (AgriFrontend.fold now prev data) data
      = AgriFrontend.fold now prev data)
  /\
  (forall now now' prev data,
      Frontend.StreamingMessage.type data = "completion" ->
      Frontend.fold now' (Frontend.fold now prev data) data
      = Frontend.fold now prev data).
Proof.
  split; intros now now' prev data Hty.
  - at_case Hty. simpl. unfold AgriFrontend.set_reasoningSteps. simpl.
    now rewrite map_complete_twice.
  - at_case Hty. simpl. unfold Frontend.set_factCheckSteps. simpl.
    rewrite map_complete_twice, num_or_twice, List.map_map. reflexivity.
Qed.

Lemma duplicate_completion_is_harmless_example :
  let s :=
    AgriFrontend.fold 2
      (AgriFrontend.fold 1 AgriFrontend.resetState (agri_step "Compare varieties" 2))
      (agri_event "completion") in
  AgriFrontend.fold 3 s (agri_event "completion") = s
  /\ AgriFrontend.progress s = 100%Q.
Proof.
  split; [|reflexivity].
  exact (proj1 duplicate_completion_is_harmless 2 3
           (AgriFrontend.fold 1 AgriFrontend.resetState
              (agri_step "Compare varieties" 2))
           (agri_event "completion") eq_refl).
Defined.

(** ** The hook between mount and unmount *)

Lemma agri_fold_live_before now s d :
  AgriFrontend.isStreaming (AgriFrontend.fold now s d) = true ->
  AgriFrontend.isStreaming s = true.
Proof.
  intros H. destruct (AgriFrontend.isStreaming s) eqn:E; [reflexivity|].
  now rewrite (agri_fold_stays_stopped now s d E) in H.
Qed.

Lemma live_has_transport_step h e :
  live_has_transport h -> live_has_transport (AgriFrontendRun.step h e).
Proof.
  intros Hinv. destruct h as [s ref ess]. unfold live_has_transport in *.
  destruct e as [[|]|es ev|es|]; simpl.
  - intros _. exists (fresh (dom ess)). split; [reflexivity|].
    apply lookup_insert_eq.
  - discriminate.
  - unfold AgriFrontend.message_from. simpl.
    destruct (ess !! es) as [[|]|] eqn:Hes; simpl; try exact Hinv.
    intros Hlive. apply Hinv. simpl.
    unfold AgriFrontend.onmessage in Hlive.
    destruct (AgriFrontend.data ev); [|exact Hlive].
    now apply agri_fold_live_before in Hlive.
  - unfold AgriFrontend.onerror. simpl.
    destruct (ess !! es) as [[|]|] eqn:Hes; simpl; try exact Hinv.
    discriminate.
  - unfold AgriFrontend.stopStreaming. simpl. destruct ref; simpl; discriminate.
Qed.

(** X5. Whatever sequence of [startStreaming] and [stopStreaming] calls,
    [message] events and transport errors the hook goes through from its
    initial state, whenever [isStreaming] is true the ref holds an
    [EventSource] that is still open. *)
Theorem streaming_state_has_open_transport (evs : list AgriFrontendRun.Event) :
  let h := AgriFrontendRun.run evs in
  AgriFrontend.isStreaming (AgriFrontend.streamingState h) = true ->
  exists es,
    AgriFrontend.eventSourceRef h = Some es
    /\ AgriFrontend.eventSources h !! es = Some Live.
Proof.
  cbv zeta. unfold AgriFrontendRun.run.
  change (live_has_transport
            (fold_left AgriFrontendRun.step evs AgriFrontend.initialHook)).
  assert (Hgen : forall h, live_has_transport h ->
                           live_has_transport (fold_left AgriFrontendRun.step evs h)).
  { induction evs as [|e evs IH]; intros h Hh; simpl; [exact Hh|].
    apply IH. now apply live_has_transport_step. }
  apply Hgen. unfold live_has_transport. simpl. discriminate.
Qed.

Lemma streaming_state_has_open_transport_example :
  exists es,
    AgriFrontend.eventSourceRef
      (AgriFrontendRun.run
         [AgriFrontendRun.Start true;
          AgriFrontendRun.Message 0 (agri_message 1 (agri_chunk "Sow"));
          AgriFrontendRun.Start true;
          AgriFrontendRun.TransportError 0;
          AgriFrontendRun.Start true]) = Some es
    /\ AgriFrontend.eventSources
         (AgriFrontendRun.run
            [AgriFrontendRun.Start true;
             AgriFrontendRun.Message 0 (agri_message 1 (agri_chunk "Sow"));
             AgriFrontendRun.Start true;
             AgriFrontendRun.TransportError 0;
             AgriFrontendRun.Start true]) !! es = Some Live.
Proof.
  exact (streaming_state_has_open_transport
           [AgriFrontendRun.Start true;
            AgriFrontendRun.Message 0 (agri_message 1 (agri_chunk "Sow"));
            AgriFrontendRun.Start true;
            AgriFrontendRun.TransportError 0;
            AgriFrontendRun.Start true] eq_refl).
Defined.

(** X6. A transport error on an open [EventSource] records
    "Connection error occurred", ends the stream and closes that
    [EventSource], so none of its later messages is folded; the text and
    the other collected fields stay as they were, and the other
    [EventSource] objects are not touched. *)
Theorem transport_error_freezes_its_stream (h : AgriFrontend.Hook) (es : nat) :
  AgriFrontend.eventSources h !! es = Some Live ->
  let h' := AgriFrontend.onerror es h in
  let s := AgriFrontend.streamingState h in
  let s' := AgriFrontend.streamingState h' in
  (AgriFrontend.error s' = Some "Connection error occurred"
   /\ AgriFrontend.isStreaming s' = false)
  /\ AgriFrontend.eventSources h' !! es = Some Closed
  /\ (forall ev, AgriFrontend.message_from es ev h' = h')
  /\ AgriFrontend.onerror es h' = h'
  /\ (AgriFrontend.streamingText s' = AgriFrontend.streamingText s
      /\ AgriFrontend.progress s' = AgriFrontend.progress s
      /\ AgriFrontend.sources s' = AgriFrontend.sources s
      /\ AgriFrontend.reasoningSteps s' = AgriFrontend.reasoningSteps s
      /\ AgriFrontend.webSearchQueries s' = AgriFrontend.webSearchQueries s)
  /\ (forall other, other <> es ->
        AgriFrontend.eventSources h' !! other
        = AgriFrontend.eventSources h !! other).
Proof.
  intros Hlive. destruct h as [s ref ess]. simpl in Hlive.
  unfold AgriFrontend.onerror. simpl. rewrite Hlive. simpl.
  split; [split; reflexivity|].
  split; [apply lookup_insert_eq|].
  split; [|split; [|split; [repeat split|]]].
  - intros ev. unfold AgriFrontend.message_from. simpl.
    now rewrite lookup_insert_eq.
  - now rewrite lookup_insert_eq.
  - intros other Hne. apply lookup_insert_ne. congruence.
Qed.

Lemma transport_error_freezes_its_stream_example :
  let h :=
    AgriFrontend.message_from 0 (agri_message 1 (agri_chunk "Sow rice"))
      (AgriFrontend.startStreaming true AgriFrontend.initialHook) in
  let h' := AgriFrontend.onerror 0 h in
  AgriFrontend.message_from 0 (agri_message 2 (agri_chunk "Sow rice in June")) h'
  = h'
  /\ AgriFrontend.streamingText (AgriFrontend.streamingState h') = "Sow rice".
Proof.
  pose proof (transport_error_freezes_its_stream
                (AgriFrontend.message_from 0 (agri_message 1 (agri_chunk "Sow rice"))
                   (AgriFrontend.startStreaming true AgriFrontend.initialHook))
                0%nat eq_refl) as H.
  cbv zeta in H. destruct H as (_ & _ & Hmsg & _ & (Htext & _) & _).
  cbv zeta. split; [apply Hmsg|]. rewrite Htext. reflexivity.
Defined.

(** X7. After [stopStreaming] the [EventSource] that was in the ref
    delivers nothing more to the state, and a second [stopStreaming]
    changes nothing. *)
Theorem stopStreaming_detaches_and_is_idempotent (h : AgriFrontend.Hook) :
  (forall es ev,
      AgriFrontend.eventSourceRef h = Some es ->
      AgriFrontend.message_from es ev (AgriFrontend.stopStreaming h)
      = AgriFrontend.stopStreaming h)
  /\ AgriFrontend.stopStreaming (AgriFrontend.stopStreaming h)
     = AgriFrontend.stopStreaming h.
Proof.
  destruct h as [s ref ess]. unfold AgriFrontend.stopStreaming. simpl. split.
  - intros es ev ->. simpl. unfold AgriFrontend.message_from. simpl.
    now rewrite lookup_insert_eq.
  - destruct ref; reflexivity.
Qed.

(** ** Fact-check steps of the extended hook *)

Lemma frontend_fold_fact_check_keys now s d :
  exists added,
    List.map fact_check_key (Frontend.factCheckSteps (Frontend.fold now s d))
    = List.map fact_check_key (Frontend.factCheckSteps s) ++ added
    /\ Forall (fun k => fst k <> "" /\ snd k <> "") added.
Proof.
  unfold Frontend.fold.
  destruct (Frontend.case_of _); simpl;
    try (exists []; rewrite app_nil_r; split; [reflexivity|constructor]).
  - destruct (Frontend.StreamingMessage.index d);
      [destruct (JS.truthy_str (Frontend.StreamingMessage.step d))|];
      exists []; rewrite app_nil_r; (split; [reflexivity|constructor]).
  - destruct (Frontend.StreamingMessage.step d) as [st|];
      [|exists []; rewrite app_nil_r; split; [reflexivity|constructor]].
    destruct (Frontend.StreamingMessage.status d) as [ss|];
      [|exists []; rewrite app_nil_r; split; [reflexivity|constructor]].
    destruct (String.eqb_spec st "") as [->|Hst]; simpl;
      [exists []; rewrite app_nil_r; split; [reflexivity|constructor]|].
    destruct (String.eqb_spec ss "") as [->|Hss]; simpl;
      [exists []; rewrite app_nil_r; split; [reflexivity|constructor]|].
    exists [(st, ss)]. rewrite List.map_app. split; [reflexivity|].
    constructor; [split; assumption|constructor].
  - destruct (Frontend.StreamingMessage.query d) as [q|];
      [destruct (negb (String.eqb q ""))|];
      exists []; rewrite app_nil_r; (split; [reflexivity|constructor]).
  - exists []. rewrite app_nil_r, List.map_map. split; [reflexivity|constructor].
Qed.

(** X8. The fact-check steps of the extended hook are append-only up to
    their [completed] flag: over any sequence of events handled by
    [onmessage], the step texts and statuses recorded before are still
    there, first and in order, and every step added since has a
    non-empty text and status. *)
Theorem fact_check_steps_are_append_only (evs : list Frontend.MessageEvent) :
  forall s,
  exists added,
    List.map fact_check_key
      (Frontend.factCheckSteps (fold_left Frontend.onmessage evs s))
    = List.map fact_check_key (Frontend.factCheckSteps s) ++ added
    /\ Forall (fun k => fst k <> "" /\ snd k <> "") added.
Proof.
  induction evs as [|ev evs IH]; intros s; simpl.
  - exists []. rewrite app_nil_r. split; [reflexivity|constructor].
  - destruct (IH (Frontend.onmessage s ev)) as (more & Hmore & Hok).
    assert (Hstep : exists added,
               List.map fact_check_key
                 (Frontend.factCheckSteps (Frontend.onmessage s ev))
               = List.map fact_check_key (Frontend.factCheckSteps s) ++ added
               /\ Forall (fun k => fst k <> "" /\ snd k <> "") added).
    { unfold Frontend.onmessage. destruct (Frontend.data ev).
      - apply frontend_fold_fact_check_keys.
      - exists []. rewrite app_nil_r. split; [reflexivity|constructor]. }
    destruct Hstep as (one & Hone & Hone_ok).
    exists (one ++ more). rewrite Hmore, Hone, app_assoc.
    split; [reflexivity|]. apply Forall_app. auto.
Qed.

(** X9. In the extended hook a [completion] event marks every fact-check
    step completed, whatever its status was, and keeps their number, texts
    and statuses. *)
Theorem completion_completes_fact_check_steps now prev data :
  Frontend.StreamingMessage.type data = "completion" ->
  let steps := Frontend.factCheckSteps (Frontend.fold now prev data) in
  Forall (fun st => Frontend.FactCheckStep.completed st = Some true) steps
  /\ List.map fact_check_key steps
     = List.map fact_check_key (Frontend.factCheckSteps prev).
Proof.
  intros Hty. at_case Hty. simpl. split.
  - apply List.Forall_forall. intros st Hin. apply List.in_map_iff in Hin.
    destruct Hin as (st0 & <- & _). reflexivity.
  - rewrite List.map_map. reflexivity.
Qed.

Lemma completion_completes_fact_check_steps_example :
  let s :=
    Frontend.fold 1 Frontend.resetState
      (Frontend.StreamingMessage.mk "fact_check_step" None None None None
         (Some "pending") None None (Some "Checking rainfall data") None None
         None None None None None None None) in
  Frontend.factCheckSteps s
  = [Frontend.FactCheckStep.mk "Checking rainfall data" "pending" (Some false)]
  /\ Forall (fun st => Frontend.FactCheckStep.completed st = Some true)
       (Frontend.factCheckSteps
          (Frontend.fold 2 s (frontend_event "completion" None))).
Proof.
  split; [reflexivity|].
  exact (proj1 (completion_completes_fact_check_steps 2
                  (Frontend.fold 1 Frontend.resetState
                     (Frontend.StreamingMessage.mk "fact_check_step" None None
                        None None (Some "pending") None None
                        (Some "Checking rainfall data") None None None None
                        None None None None None))
                  (frontend_event "completion" None) eq_refl)).
Defined.

(** ** The request/response hook: every outcome *)

Lemma fallback_failed_final e s :
  let s' := Fallback.failed e s in
  Fallback.isStreaming s' = false
  /\ Fallback.error s' <> None
  /\ Fallback.streamingText s' = ""
  /\ Fallback.progress s' = 0%Q.
Proof. simpl. repeat split. discriminate. Qed.

Lemma fallback_after_ticks (last : list Fallback.Update) s0 :
  Fallback.apply_updates
    ((fun _ => Fallback.resetState)
       :: [ Fallback.tick 15%Q "Connecting to agricultural AI...";
            Fallback.tick 30%Q "Analyzing your query...";
            Fallback.tick 45%Q "Searching knowledge base...";
            Fallback.tick 60%Q "Generating response..." ] ++ last) s0
  = Fallback.apply_updates last
      (Fallback.tick 60%Q "Generating response..."
         (Fallback.tick 45%Q "Searching knowledge base..."
            (Fallback.tick 30%Q "Analyzing your query..."
               (Fallback.tick 15%Q "Connecting to agricultural AI..."
                  Fallback.resetState)))).
Proof. reflexivity. Qed.

(** X10. A run of the request/response hook whose request settles
    (resolves or rejects) never ends in between: the
    last state has [isStreaming = false], and either the assistant message
    was delivered (no error, the text is its content, progress 100) or it
    was not (an error is set, the text is empty, progress 0).  It is
    delivered exactly when there is a token, the request resolves and the
    reply holds an assistant message. *)
Theorem fallback_run_always_settles token response s0 :
  let final :=
    Fallback.apply_updates (Fallback.startStreaming token response) s0 in
  Fallback.isStreaming final = false
  /\ match delivered token response with
     | Some ai =>
         Fallback.error final = None
         /\ Fallback.streamingText final = Fallback.ChatMessage.content ai
         /\ Fallback.progress final = 100%Q
     | None =>
         Fallback.error final <> None
         /\ Fallback.streamingText final = ""
         /\ Fallback.progress final = 0%Q
     end.
Proof.
  cbv zeta. unfold delivered, Fallback.startStreaming.
  destruct (JS.truthy_str token); simpl negb; cbv iota.
  2:{ split; [reflexivity|]. repeat split. discriminate. }
  destruct response as [e|msgs].
  - rewrite fallback_after_ticks. split; [reflexivity|]. repeat split. discriminate.
  - destruct (Fallback.find_assistant msgs) as [ai|] eqn:Hfind.
    + rewrite (find_assistant_length _ _ Hfind).
      set (words := Fallback.split_space (Fallback.ChatMessage.content ai)).
      rewrite fallback_after_ticks.
      change ([Fallback.delivering]
                ++ fst (Fallback.replay (List.length words) 0 "" words)
                ++ [Fallback.completed ai; Fallback.finished])
        with (Fallback.delivering
                :: (fst (Fallback.replay (List.length words) 0 "" words)
                      ++ [Fallback.completed ai; Fallback.finished])).
      change (Fallback.apply_updates (Fallback.delivering :: ?l) ?s)
        with (Fallback.apply_updates l (Fallback.delivering s)).
      rewrite apply_updates_app.
      match goal with
      | |- context [Fallback.apply_updates (fst _) ?s] =>
          destruct (replay_updates (List.length words) words 0 "" s
                      (split_space_not_nil _)) as (Htext & _ & Herr)
      end.
      rewrite (replay_text (Fallback.ChatMessage.content ai)
               : snd (Fallback.replay (List.length words) 0 "" words) = _)
        in Htext.
      simpl in Herr. unfold Fallback.apply_updates at 1. simpl.
      split; [reflexivity|]. split; [exact Herr|]. split; [exact Htext|reflexivity].
    + destruct (0 <? List.length msgs)%nat;
        rewrite fallback_after_ticks; split; try reflexivity;
        repeat split; discriminate.
Qed.

(** ** The replay loop, step by step *)

Lemma is_prefix_refl (a : string) : is_prefix a a.
Proof. exists "". now rewrite append_empty_r. Qed.

Lemma is_prefix_trans (a b c : string) :
  is_prefix a b -> is_prefix b c -> is_prefix a c.
Proof.
  intros [x ->] [y ->]. exists (x +:+ y). now rewrite append_assoc.
Qed.

Lemma length_split_space (t : string) :
  List.length (Fallback.split_space t) = S (count_spaces t).
Proof.
  induction t as [|c t IH]; simpl; [reflexivity|].
  destruct (Ascii.eqb c " "); simpl.
  - now rewrite IH.
  - destruct (Fallback.split_space t) as [|w ws] eqn:Ht.
    + now destruct (split_space_not_nil t).
    + simpl in *. exact IH.
Qed.

Lemma length_replay n ws : forall i cur,
  List.length (fst (Fallback.replay n i cur ws)) = List.length ws.
Proof.
  induction ws as [|w ws IH]; intros i cur; [reflexivity|].
  rewrite replay_cons_fst. simpl. now rewrite IH.
Qed.

(** The loop's [currentText] only grows, and every text it shows is an
    initial part of the last one. *)
Lemma replay_shows_prefixes n ws : forall i cur s,
  is_prefix cur (snd (Fallback.replay n i cur ws))
  /\ Forall (fun u => is_prefix (Fallback.streamingText (u s))
                        (snd (Fallback.replay n i cur ws)))
       (fst (Fallback.replay n i cur ws)).
Proof.
  induction ws as [|w ws IH]; intros i cur s.
  - simpl. split; [apply is_prefix_refl|constructor].
  - rewrite replay_cons_fst, replay_cons_snd.
    set (cur' := cur +:+ (if (0 <? i)%nat then " " else "") +:+ w).
    destruct (IH (S i) cur' s) as (Hcur & Hall).
    split.
    + apply (is_prefix_trans _ cur'); [|exact Hcur].
      exists ((if (0 <? i)%nat then " " else "") +:+ w). reflexivity.
    + constructor; [exact Hcur|exact Hall].
Qed.

(** X11. The replay shows the answer growing, never anything else: for
    an answer [t] the loop makes one update per word, that is one more
    than [t] has spaces, and the text of each update is an initial part of
    [t]. *)
Theorem replay_shows_growing_prefixes (t : string) (s : Fallback.StreamingState) :
  let words := Fallback.split_space t in
  let shown := fst (Fallback.replay (List.length words) 0 "" words) in
  List.length shown = S (count_spaces t)
  /\ Forall (fun u => is_prefix (Fallback.streamingText (u s)) t) shown.
Proof.
  cbv zeta. split.
  - now rewrite length_replay, length_split_space.
  - destruct (replay_shows_prefixes
                (List.length (Fallback.split_space t)) (Fallback.split_space t)
                0 "" s) as (_ & Hall).
    rewrite (replay_text t
             : snd (Fallback.replay (List.length (Fallback.split_space t)) 0 ""
                      (Fallback.split_space t)) = t) in Hall.
    exact Hall.
Qed.

(** ** [sendMessage] of the chat page: every path *)

Lemma assistants_app l1 l2 : assistants (l1 ++ l2) = assistants l1 ++ assistants l2.
Proof. unfold assistants. apply List.filter_app. Qed.

(** The rollback filter drops user messages only. *)
Lemma assistants_rollback t l : assistants (ChatInterface.rollback t l) = assistants l.
Proof.
  unfold assistants, ChatInterface.rollback.
  induction l as [|m l IH]; simpl; [reflexivity|].
  destruct (ChatInterface.Message.role m) eqn:Hrole; simpl.
  - destruct (ChatInterface.near t (ChatInterface.Message.timestamp m)); simpl;
      [exact IH|]. rewrite Hrole. exact IH.
  - rewrite Hrole. now rewrite IH.
Qed.

(** X13. Whatever the outcome, [sendMessage] never removes or reorders an
    assistant message: the assistant messages on screen before the call
    are still there afterwards, first and in order, followed by at most one
    new one (the reply or the error bubble). *)
Theorem sendMessage_keeps_assistant_messages
    (r : ChatInterface.Run) (st : ChatInterface.State) :
  exists added,
    assistants (ChatInterface.messages (ChatInterface.sendMessage r st))
    = assistants (ChatInterface.messages st) ++ added
    /\ (List.length added <= 1)%nat.
Proof.
  unfold ChatInterface.sendMessage.
  destruct (ChatInterface.is_blank _);
    [exists []; rewrite app_nil_r; split; [reflexivity|simpl; lia]|].
  destruct (ChatInterface.isThinking st);
    [exists []; rewrite app_nil_r; split; [reflexivity|simpl; lia]|].
  destruct (negb (ChatInterface.isAuthenticated st));
    [exists []; rewrite app_nil_r; split; [reflexivity|simpl; lia]|].
  destruct (if JS.truthy_str (ChatInterface.sessionId st)
            then Fallback.Resolves (JS.str_or (ChatInterface.sessionId st) "")
            else ChatInterface.session r) as [e|sid].
  - simpl. rewrite assistants_app, assistants_rollback.
    eexists. split; [reflexivity|simpl; lia].
  - destruct (ChatInterface.reply r) as [e|msgs].
    + simpl. rewrite assistants_app, assistants_rollback, assistants_app.
      simpl. rewrite app_nil_r. eexists. split; [reflexivity|simpl; lia].
    + simpl. destruct (Fallback.find_assistant msgs) as [a|].
      * rewrite !assistants_app. simpl. rewrite app_nil_r.
        eexists. split; [reflexivity|simpl; lia].
      * rewrite assistants_app. simpl. rewrite app_nil_r.
        exists []. rewrite app_nil_r. split; [reflexivity|simpl; lia].
Qed.

Lemma is_blank_spaces_example : ChatInterface.is_blank "   " = true.
Proof. reflexivity. Qed.

(** [sendMessage] does nothing at all when the typed message is
    empty or white space only, when a reply is already awaited, or when the
    user is not signed in: the state is returned as it was, whatever the
    API would have answered. *)
Lemma sendMessage_guards (r : ChatInterface.Run) (st : ChatInterface.State) :
  ChatInterface.is_blank (ChatInterface.currentMessage st) = true
  \/ ChatInterface.isThinking st = true
  \/ ChatInterface.isAuthenticated st = false ->
  ChatInterface.sendMessage r st = st.
Proof.
  intros H. unfold ChatInterface.sendMessage.
  destruct (ChatInterface.is_blank _); [reflexivity|].
  destruct (ChatInterface.isThinking st); [reflexivity|].
  destruct (ChatInterface.isAuthenticated st); [|reflexivity].
  destruct H as [H|[H|H]]; discriminate H.
Qed.

Lemma sendMessage_guards_example :
  ChatInterface.sendMessage
    (failing_run (Fallback.ErrorObject "Failed to fetch") 40)
    (chat_ready [] "  ")
  = chat_ready [] "  ".
Proof.
  exact (sendMessage_guards
           (failing_run (Fallback.ErrorObject "Failed to fetch") 40)
           (chat_ready [] "  ") (or_introl eq_refl)).
Defined.

(** A message with a printable character passes the first guard. *)
Lemma has_printable_not_blank (s : string) :
  has_printable s = true -> ChatInterface.is_blank s = false.
Proof.
  induction s as [|c rest IH]; [discriminate|].
  cbn [has_printable ChatInterface.is_blank].
  intros H. apply orb_true_iff in H. destruct H as [H|H].
  - apply andb_true_iff in H. destruct H as [Hlo Hhi].
    apply Nat.leb_le in Hlo, Hhi.
    assert (Hsp : ChatInterface.is_space c = false).
    { unfold ChatInterface.is_space.
      destruct (Nat.leb_spec 9 (nat_of_ascii c));
        destruct (Nat.leb_spec (nat_of_ascii c) 13);
        destruct (Nat.eqb_spec (nat_of_ascii c) 32); simpl; try reflexivity; lia. }
    now rewrite Hsp.
  - rewrite (IH H). apply andb_false_r.
Qed.

(** X14. When a send of a message with a printable ASCII character, made
    while no reply is awaited and the user is signed in, fails, in
    creating the session or in the request itself, the page is ready for a
    retry: the input field holds the typed text again, [isThinking] is
    false, and the last message on screen is the error bubble with the
    failure's text. *)
Theorem failed_send_is_ready_for_retry
    (r : ChatInterface.Run) (st : ChatInterface.State) (e : Fallback.Thrown) :
  has_printable (ChatInterface.currentMessage st) = true ->
  ChatInterface.isThinking st = false ->
  ChatInterface.isAuthenticated st = true ->
  (JS.truthy_str (ChatInterface.sessionId st) = false
   /\ ChatInterface.session r = Fallback.Rejects e)
  \/ ((JS.truthy_str (ChatInterface.sessionId st) = true
       \/ exists sid, ChatInterface.session r = Fallback.Resolves sid)
      /\ ChatInterface.reply r = Fallback.Rejects e) ->
  let st' := ChatInterface.sendMessage r st in
  ChatInterface.currentMessage st' = ChatInterface.currentMessage st
  /\ ChatInterface.isThinking st' = false
  /\ last (ChatInterface.messages st')
     = Some (ChatInterface.Message.mk
               (ChatInterface.now_id (ChatInterface.t_done r))
               ChatInterface.assistant (ChatInterface.error_text e)
               (Some (ChatInterface.t_done r))).
Proof.
  intros Hprint Hthink Hauth Hfail. cbv zeta.
  pose proof (has_printable_not_blank _ Hprint) as Hblank.
  unfold ChatInterface.sendMessage. rewrite Hblank, Hthink, Hauth. simpl.
  destruct Hfail as [[Hsess Hrej]|[Hsess Hrej]].
  - rewrite Hsess, Hrej. simpl. repeat split. apply last_snoc.
  - destruct (JS.truthy_str (ChatInterface.sessionId st)) eqn:Htruthy.
    + rewrite Hrej. simpl. repeat split. apply last_snoc.
    + destruct Hsess as [Hsess|[sid Hsid]]; [discriminate|].
      rewrite Hsid, Hrej. simpl. repeat split. apply last_snoc.
Qed.

Lemma failed_send_is_ready_for_retry_example :
  let st' :=
    ChatInterface.sendMessage
      (failing_run (Fallback.ErrorObject "Internal Server Error") 2500)
      (chat_ready [] "When do I sow rice?") in
  ChatInterface.currentMessage st' = "When do I sow rice?"
  /\ ChatInterface.isThinking st' = false.
Proof.
  pose proof (failed_send_is_ready_for_retry
                (failing_run (Fallback.ErrorObject "Internal Server Error") 2500)
                (chat_ready [] "When do I sow rice?")
                (Fallback.ErrorObject "Internal Server Error")
                eq_refl eq_refl eq_refl
                (or_intror (conj (or_introl eq_refl) eq_refl))) as H.
  cbv zeta in H. destruct H as (H1 & H2 & _).
  cbv zeta. split; [exact H1|exact H2].
Defined.

(** X15. When a message with a printable ASCII character is sent and the
    session cannot be created, the typed message is never shown: apart
    from the error bubble, every message on screen afterwards was on
    screen before, and no session id is stored. *)
Theorem failed_session_shows_no_user_message
    (r : ChatInterface.Run) (st : ChatInterface.State) (e : Fallback.Thrown) :
  has_printable (ChatInterface.currentMessage st) = true ->
  ChatInterface.isThinking st = false ->
  ChatInterface.isAuthenticated st = true ->
  JS.truthy_str (ChatInterface.sessionId st) = false ->
  ChatInterface.session r = Fallback.Rejects e ->
  let st' := ChatInterface.sendMessage r st in
  (forall m, In m (removelast (ChatInterface.messages st')) ->
             In m (ChatInterface.messages st))
  /\ ChatInterface.sessionId st' = ChatInterface.sessionId st
  /\ List.length (ChatInterface.messages st')
     = S (List.length
            (ChatInterface.rollback (ChatInterface.t_done r)
               (ChatInterface.messages st))).
Proof.
  intros Hprint Hthink Hauth Hsess Hrej. cbv zeta.
  pose proof (has_printable_not_blank _ Hprint) as Hblank.
  unfold ChatInterface.sendMessage. rewrite Hblank, Hthink, Hauth, Hsess, Hrej.
  simpl. split; [|split; [reflexivity|]].
  - intros m Hin. rewrite removelast_last in Hin.
    unfold ChatInterface.rollback in Hin. apply List.filter_In in Hin. tauto.
  - rewrite length_app. simpl. lia.
Qed.

Lemma failed_session_shows_no_user_message_example :
  ChatInterface.messages
    (ChatInterface.sendMessage
       (ChatInterface.mkRun (Fallback.Rejects (Fallback.ErrorObject "HTTP 503"))
                            (Fallback.Resolves []) 10000 10300)
       (ChatInterface.mkState [] "When do I sow rice?" None false true))
  = [ChatInterface.Message.mk "10300" ChatInterface.assistant
                              "**Error**: HTTP 503" (Some 10300)]
  /\ List.length
       (ChatInterface.messages
          (ChatInterface.sendMessage
             (ChatInterface.mkRun (Fallback.Rejects (Fallback.ErrorObject "HTTP 503"))
                                  (Fallback.Resolves []) 10000 10300)
             (ChatInterface.mkState [] "When do I sow rice?" None false true)))
     = 1%nat.
Proof.
  split; [vm_compute; reflexivity|].
  exact (proj2 (proj2 (failed_session_shows_no_user_message
                         (ChatInterface.mkRun
                            (Fallback.Rejects (Fallback.ErrorObject "HTTP 503"))
                            (Fallback.Resolves []) 10000 10300)
                         (ChatInterface.mkState [] "When do I sow rice?" None
                                                false true)
                         (Fallback.ErrorObject "HTTP 503")
                         eq_refl eq_refl eq_refl eq_refl eq_refl))).
Defined.

(** ** Settling the streamed message on the page *)

Lemma settle_last_cases (s : AgriFrontend.StreamingState) (prev : list AgriPage.Message.t) :
  AgriPage.settle_last s prev = prev
  \/ exists front m,
       prev = front ++ [m]
       /\ AgriPage.Message.role m = ChatInterface.assistant
       /\ AgriPage.Message.is_streaming m = Some true
       /\ AgriPage.settle_last s prev = front ++ [AgriPage.settled s m].
Proof.
  unfold AgriPage.settle_last.
  destruct (last prev) as [m|] eqn:Hlast; [|left; reflexivity].
  apply last_Some in Hlast. destruct Hlast as [front ->].
  destruct (AgriPage.Message.role m) eqn:Hrole; simpl; [left; reflexivity|].
  destruct (AgriPage.Message.is_streaming m) as [[|]|] eqn:Hs; simpl;
    try (left; reflexivity).
  right. exists front, m. rewrite removelast_last. auto.
Qed.

Lemma settle_last_settled (s : AgriFrontend.StreamingState) front m :
  AgriPage.settle_last s (front ++ [AgriPage.settled s m])
  = front ++ [AgriPage.settled s m].
Proof.
  unfold AgriPage.settle_last. rewrite last_snoc. simpl.
  now rewrite andb_false_r.
Qed.

(** X16. The effect that settles the streamed message touches the last
    message only: the list keeps its length and all messages but the last,
    a list that does not end in an assistant message still marked
    streaming is left alone, running the effect again changes nothing, and
    a stream that ended with an empty text never settles the
    placeholder. *)
Theorem settling_touches_only_the_last_message
    (s : AgriFrontend.StreamingState) (messages : list AgriPage.Message.t) :
  let messages' := AgriPage.on_streaming_change s messages in
  List.length messages' = List.length messages
  /\ removelast messages' = removelast messages
  /\ AgriPage.on_streaming_change s messages' = messages'
  /\ (AgriFrontend.streamingText s = "" -> messages' = messages)
  /\ (forall m, last messages = Some m ->
                AgriPage.Message.is_streaming m <> Some true ->
                messages' = messages).
Proof.
  cbv zeta. unfold AgriPage.on_streaming_change.
  destruct (JS.truthy_str (Some (AgriFrontend.streamingText s))
            && negb (AgriFrontend.isStreaming s)) eqn:Hrun.
  - destruct (settle_last_cases s messages)
      as [Hsame|(front & m & -> & Hrole & Hstream & Hsettled)].
    + rewrite Hsame, Hsame. repeat split; auto.
    + rewrite Hsettled, settle_last_settled.
      split; [now rewrite !length_app|].
      split; [now rewrite !removelast_last|].
      split; [reflexivity|]. split.
      * intros Hempty. rewrite Hempty in Hrun. discriminate Hrun.
      * intros m' Hlast Hnot. rewrite last_snoc in Hlast.
        injection Hlast as <-. contradiction.
  - repeat split; auto.
Qed.

Lemma settling_example :
  let placeholder :=
    AgriPage.Message.mk "2" ChatInterface.assistant "" 2000 None None None None
                        None None (Some true) in
  let question :=
    AgriPage.Message.mk "1" ChatInterface.user "When do I sow rice?" 1000 None
                        None None None None None None in
  let done :=
    AgriFrontend.fold 3
      (AgriFrontend.fold 2 AgriFrontend.resetState (agri_chunk "Sow in June"))
      (agri_event "completion") in
  List.map AgriPage.Message.content
    (AgriPage.on_streaming_change done [question; placeholder])
  = ["When do I sow rice?"; "Sow in June"]
  /\ List.map AgriPage.Message.is_streaming
       (AgriPage.on_streaming_change done [question; placeholder])
     = [None; Some false].
Proof. split; reflexivity. Qed.

(** ** [useChatManager] *)

Lemma filter_keeps_other_ids sid (l : list ChatManager.ChatSession.t) :
  (forall s, In s l -> ChatManager.ChatSession.id s <> sid) ->
  List.filter (fun s => negb (String.eqb (ChatManager.ChatSession.id s) sid)) l = l.
Proof.
  induction l as [|s l IH]; intros Hall; simpl; [reflexivity|].
  destruct (String.eqb_spec (ChatManager.ChatSession.id s) sid) as [Heq|_]; simpl.
  - exfalso. apply (Hall s); [left; reflexivity|exact Heq].
  - f_equal. apply IH. intros s' Hin. apply Hall. now right.
Qed.

(** X17. A successful [deleteSession] removes exactly the sessions with
    that id from the list; the current session and its messages are
    cleared when the deleted session was the current one and are left
    alone otherwise. *)
Theorem deleteSession_removes_exactly_that_session
    (sid : string) (st : ChatManager.State) :
  let st' := ChatManager.deleteSession sid (Fallback.Resolves tt) st in
  (forall s, In s (ChatManager.sessions st')
             <-> In s (ChatManager.sessions st)
                 /\ ChatManager.ChatSession.id s <> sid)
  /\ (ChatManager.is_current sid st = true ->
      ChatManager.currentSession st' = None /\ ChatManager.messages st' = [])
  /\ (ChatManager.is_current sid st = false ->
      ChatManager.currentSession st' = ChatManager.currentSession st
      /\ ChatManager.messages st' = ChatManager.messages st).
Proof.
  cbv zeta. unfold ChatManager.deleteSession. simpl. split; [|split].
  - intros s. rewrite List.filter_In.
    destruct (String.eqb_spec (ChatManager.ChatSession.id s) sid); simpl;
      split; intros [Hin H]; split; auto; try discriminate; contradiction.
  - intros ->. split; reflexivity.
  - intros ->. split; reflexivity.
Qed.

(** X18. Creating a session and then deleting it gives back the session
    list as it was, provided no listed session already had the new id;
    what does not come back is the selection: no session is current and
    the message list is empty. *)
Theorem create_then_delete_restores_the_list
    (newSession : ChatManager.ChatSession.t) (st : ChatManager.State) :
  (forall s, In s (ChatManager.sessions st) ->
             ChatManager.ChatSession.id s <> ChatManager.ChatSession.id newSession) ->
  let st' :=
    ChatManager.deleteSession (ChatManager.ChatSession.id newSession)
      (Fallback.Resolves tt)
      (ChatManager.createSession (Fallback.Resolves newSession) st) in
  ChatManager.sessions st' = ChatManager.sessions st
  /\ ChatManager.currentSession st' = None
  /\ ChatManager.messages st' = []
  /\ ChatManager.isLoading st' = false
  /\ ChatManager.error st' = None.
Proof.
  intros Hfresh. cbv zeta.
  unfold ChatManager.deleteSession, ChatManager.createSession,
    ChatManager.is_current. simpl.
  rewrite String.eqb_refl. simpl.
  rewrite (filter_keeps_other_ids _ _ Hfresh). repeat split.
Qed.

Lemma create_then_delete_restores_the_list_example :
  ChatManager.sessions
    (ChatManager.deleteSession "s2" (Fallback.Resolves tt)
       (ChatManager.createSession
          (Fallback.Resolves (sample_session "s2" "New Chat"))
          (ChatManager.mkState [sample_session "s1" "Rice"]
                               (Some (sample_session "s1" "Rice")) [] false None)))
  = [sample_session "s1" "Rice"].
Proof.
  refine (proj1 (create_then_delete_restores_the_list
                   (sample_session "s2" "New Chat")
                   (ChatManager.mkState [sample_session "s1" "Rice"]
                      (Some (sample_session "s1" "Rice")) [] false None) _)).
  intros s [<-|[]]. discriminate.
Defined.

(** X19. A rejected API call is never applied in part: for each of the
    six operations of the manager, the session list, the current session
    and the messages after a failure are those before the call, and the
    error slot holds the failure's message (or the operation's own text
    when the thrown value is not an [Error]). *)
Theorem manager_failures_change_no_data (e : Fallback.Thrown) (st : ChatManager.State) :
  let same (fallback : string) (st' : ChatManager.State) :=
    ChatManager.sessions st' = ChatManager.sessions st
    /\ ChatManager.currentSession st' = ChatManager.currentSession st
    /\ ChatManager.messages st' = ChatManager.messages st
    /\ ChatManager.error st' = Some (ChatManager.message_of e fallback) in
  same "Failed to load sessions" (ChatManager.loadSessions (Fallback.Rejects e) st)
  /\ same "Failed to create session"
       (ChatManager.createSession (Fallback.Rejects e) st)
  /\ same "Failed to load session" (ChatManager.selectSession (Fallback.Rejects e) st)
  /\ (forall sid,
        same "Failed to update session"
          (ChatManager.updateSession sid (Fallback.Rejects e) st))
  /\ (forall sid,
        same "Failed to delete session"
          (ChatManager.deleteSession sid (Fallback.Rejects e) st))
  /\ (forall sid,
        ChatManager.targetSessionId sid st <> None ->
        same "Failed to send message"
          (ChatManager.sendMessage sid (Fallback.Rejects e) st)).
Proof.
  cbv zeta. split; [|split; [|split; [|split; [|split]]]].
  - repeat split.
  - repeat split.
  - repeat split.
  - intros sid. repeat split.
  - intros sid. repeat split.
  - intros sid Htarget. unfold ChatManager.sendMessage.
    destruct (ChatManager.targetSessionId sid st); [|contradiction].
    repeat split.
Qed.

Lemma map_id_update sid updated (l : list ChatManager.ChatSession.t) :
  ChatManager.ChatSession.id updated = sid ->
  List.map ChatManager.ChatSession.id
    (List.map (fun s => if String.eqb (ChatManager.ChatSession.id s) sid
                        then updated else s) l)
  = List.map ChatManager.ChatSession.id l.
Proof.
  intros Hid. rewrite List.map_map. apply List.map_ext. intros s.
  destruct (String.eqb_spec (ChatManager.ChatSession.id s) sid); congruence.
Qed.

(** X20. A successful [updateSession] whose reply carries the id that
    was asked for changes no id and no position in the session list: the
    ids, in order, are the same before and after; every listed session is
    the reply or an untouched session with another id; the current session
    becomes the reply exactly when it had that id; the messages stay. *)
Theorem updateSession_keeps_ids_in_place
    (sid : string) (updated : ChatManager.ChatSession.t) (st : ChatManager.State) :
  ChatManager.ChatSession.id updated = sid ->
  let st' := ChatManager.updateSession sid (Fallback.Resolves updated) st in
  List.map ChatManager.ChatSession.id (ChatManager.sessions st')
  = List.map ChatManager.ChatSession.id (ChatManager.sessions st)
  /\ (forall s, In s (ChatManager.sessions st') ->
        s = updated
        \/ (In s (ChatManager.sessions st) /\ ChatManager.ChatSession.id s <> sid))
  /\ ChatManager.currentSession st'
     = (if ChatManager.is_current sid st then Some updated
        else ChatManager.currentSession st)
  /\ ChatManager.messages st' = ChatManager.messages st.
Proof.
  intros Hid. cbv zeta. unfold ChatManager.updateSession. simpl.
  split; [now apply map_id_update|]. split; [|split; reflexivity].
  intros s Hin. apply List.in_map_iff in Hin. destruct Hin as (s0 & Hs & Hin0).
  destruct (String.eqb_spec (ChatManager.ChatSession.id s0) sid) as [Heq|Hne].
  - left. congruence.
  - right. subst s. split; assumption.
Qed.

Lemma updateSession_keeps_ids_in_place_example :
  ChatManager.sessions
    (ChatManager.updateSession "s1"
       (Fallback.Resolves (sample_session "s1" "Rice in June"))
       (ChatManager.mkState [sample_session "s2" "Wheat"; sample_session "s1" "Rice"]
                            None [] false None))
  = [sample_session "s2" "Wheat"; sample_session "s1" "Rice in June"]
  /\ List.map ChatManager.ChatSession.id
       (ChatManager.sessions
          (ChatManager.updateSession "s1"
             (Fallback.Resolves (sample_session "s1" "Rice in June"))
             (ChatManager.mkState
                [sample_session "s2" "Wheat"; sample_session "s1" "Rice"]
                None [] false None)))
     = ["s2"; "s1"].
Proof.
  split; [reflexivity|].
  exact (proj1 (updateSession_keeps_ids_in_place "s1"
                  (sample_session "s1" "Rice in June")
                  (ChatManager.mkState
                     [sample_session "s2" "Wheat"; sample_session "s1" "Rice"]
                     None [] false None) eq_refl)).
Defined.

(** ** Indices that are not array indices *)

(** X21. A [reasoning_step] event whose index is negative or too large to
    be an array index adds no element: the length of [reasoningSteps] and
    the value read at every position stay as they were (the entry is kept
    under a key outside the elements), and the next [reasoning_step] event
    with another index drops it, since the spread copies elements only. *)
Theorem out_of_range_step_is_not_listed now now' s d d' i i' :
  AgriFrontend.StreamingMessage.type d = "reasoning_step" ->
  JS.truthy_str (AgriFrontend.StreamingMessage.step d) = true ->
  AgriFrontend.StreamingMessage.index d = Some i ->
  JSArray.is_index i = false ->
  AgriFrontend.StreamingMessage.type d' = "reasoning_step" ->
  JS.truthy_str (AgriFrontend.StreamingMessage.step d') = true ->
  AgriFrontend.StreamingMessage.index d' = Some i' ->
  i' <> i ->
  let steps := AgriFrontend.reasoningSteps in
  let s1 := AgriFrontend.fold now s d in
  JSArray.length (steps s1) = JSArray.length (steps s)
  /\ (forall j, JSArray.get (steps s1) j = JSArray.get (steps s) j)
  /\ JSArray.props (steps s1) !! i
     = Some (ReasoningStep.mk (AgriFrontend.StreamingMessage.step d) (Some i)
                              (Some false))
  /\ JSArray.props (steps (AgriFrontend.fold now' s1 d')) !! i = None.
Proof.
  intros Hty Hstep Hidx Hout Hty' Hstep' Hidx' Hne steps s1.
  assert (E1 : steps s1
               = JSArray.mk (List.map JSArray.fill (JSArray.elems (steps s)))
                   (<[i := ReasoningStep.mk (AgriFrontend.StreamingMessage.step d)
                                            (Some i) (Some false)]> ∅)).
  { subst s1 steps. at_case Hty. rewrite Hidx, Hstep.
    unfold JSArray.set, JSArray.spread. rewrite Hout. reflexivity. }
  split; [|split; [|split]].
  - rewrite E1. unfold JSArray.length. simpl. apply length_map.
  - intros j. rewrite E1. apply (get_spread (steps s) j).
  - rewrite E1. simpl. apply lookup_insert_eq.
  - subst steps. at_case Hty'. rewrite Hidx', Hstep'.
    unfold JSArray.set, JSArray.spread. simpl.
    destruct (JSArray.is_index i'); simpl.
    + apply lookup_empty.
    + rewrite lookup_insert_ne by exact Hne. apply lookup_empty.
Qed.

Lemma out_of_range_step_is_not_listed_example :
  let s1 :=
    AgriFrontend.fold 1 AgriFrontend.resetState (agri_step "Compare varieties" (-1)) in
  JSArray.length (AgriFrontend.reasoningSteps s1) = 0%nat
  /\ JSArray.props
       (AgriFrontend.reasoningSteps
          (AgriFrontend.fold 2 s1 (agri_step "Read the question" 0)))
     !! (-1) = None.
Proof.
  pose proof (out_of_range_step_is_not_listed 1 2 AgriFrontend.resetState
                (agri_step "Compare varieties" (-1))
                (agri_step "Read the question" 0) (-1) 0
                eq_refl eq_refl eq_refl eq_refl eq_refl eq_refl eq_refl
                ltac:(discriminate)) as H.
  cbv zeta in H. destruct H as (H1 & _ & _ & H4).
  split; [exact H1|exact H4].
Defined.

(** ** The window of the rollback filter *)

(** X22. The rollback filter of the chat page removes a user message
    exactly when its timestamp lies strictly within one second of the
    failure, before or after: a user message stamped exactly 1000 ms away,
    or with an invalid date, stays, and so does every assistant
    message. *)
Theorem rollback_window (t : Z) (l : list ChatInterface.Message.t)
    (m : ChatInterface.Message.t) :
  In m (ChatInterface.rollback t l)
  <-> In m l
      /\ (ChatInterface.Message.role m = ChatInterface.assistant
          \/ ChatInterface.Message.timestamp m = None
          \/ exists ts, ChatInterface.Message.timestamp m = Some ts
                        /\ (ts <= t - 1000 \/ t + 1000 <= ts)).
Proof.
  unfold ChatInterface.rollback. rewrite List.filter_In.
  apply and_iff_compat_l.
  destruct (ChatInterface.Message.role m); simpl.
  - unfold ChatInterface.near.
    destruct (ChatInterface.Message.timestamp m) as [ts|]; simpl.
    + destruct (Z.ltb_spec (Z.abs (ts - t)) 1000); simpl; split.
      * discriminate.
      * intros [H'|[H'|(ts' & Hts & H')]]; try discriminate.
        injection Hts as <-. lia.
      * intros _. right. right. exists ts. split; [reflexivity|lia].
      * reflexivity.
    + split; auto.
  - split; auto.
Qed.

(** ** Stopping before starting again *)

(** X23. [stopStreaming] followed by a [startStreaming] whose
    [EventSource] is constructed gives a clean
    start: the state is the reset one, the ref holds a new open
    [EventSource], and the one that was in the ref before is closed, so
    its events are no longer folded into the new stream. *)
Theorem stop_then_start_does_not_interleave (h : AgriFrontend.Hook) (es : nat) :
  AgriFrontend.eventSourceRef h = Some es ->
  let h' := AgriFrontend.startStreaming true (AgriFrontend.stopStreaming h) in
  AgriFrontend.streamingState h' = AgriFrontend.resetState
  /\ AgriFrontend.eventSources h' !! es = Some Closed
  /\ AgriFrontend.eventSourceRef h' <> Some es
  /\ (exists fresh_es,
        AgriFrontend.eventSourceRef h' = Some fresh_es
        /\ AgriFrontend.eventSources h' !! fresh_es = Some Live)
  /\ (forall ev, AgriFrontend.message_from es ev h' = h').
Proof.
  intros Href. destruct h as [s ref ess]. simpl in Href. subst ref.
  unfold AgriFrontend.startStreaming, AgriFrontend.stopStreaming. simpl.
  set (ess' := <[es := Closed]> ess).
  assert (Hfresh : fresh (dom ess') <> es).
  { intros Heq. apply (is_fresh (dom ess')). rewrite Heq.
    apply elem_of_dom. exists Closed. apply lookup_insert_eq. }
  assert (Hclosed : <[fresh (dom ess') := Live]> ess' !! es = Some Closed).
  { rewrite lookup_insert_ne by exact Hfresh. apply lookup_insert_eq. }
  split; [reflexivity|]. split; [exact Hclosed|].
  split; [congruence|]. split.
  - exists (fresh (dom ess')). split; [reflexivity|apply lookup_insert_eq].
  - intros ev. unfold AgriFrontend.message_from. simpl. now rewrite Hclosed.
Qed.

Lemma stop_then_start_does_not_interleave_example :
  let h :=
    AgriFrontend.message_from 0 (agri_message 1 (agri_chunk "Sow rice"))
      (AgriFrontend.startStreaming true AgriFrontend.initialHook) in
  let h' := AgriFrontend.startStreaming true (AgriFrontend.stopStreaming h) in
  AgriFrontend.message_from 0 (agri_message 2 (agri_chunk "Sow rice in June")) h'
  = h'
  /\ AgriFrontend.streamingText (AgriFrontend.streamingState h') = "".
Proof.
  pose proof (stop_then_start_does_not_interleave
                (AgriFrontend.message_from 0 (agri_message 1 (agri_chunk "Sow rice"))
                   (AgriFrontend.startStreaming true AgriFrontend.initialHook))
                0%nat eq_refl) as H.
  cbv zeta in H. destruct H as (Hstate & _ & _ & _ & Hmsg).
  cbv zeta. split; [apply Hmsg|]. rewrite Hstate. reflexivity.
Defined.
